(** * ymd_utility: a shallow embedding of [ymd_utility.py]

    The module offers three validators ([is_ymd], [is_ymd_date],
    [is_ymd_datetime]) and the class [YMDDate], a calendar date kept as
    three pieces of text (year, month, day) and handed to Python's
    [datetime] module whenever arithmetic or ordering is needed.

    Conventions of the embedding.
    - Python text is a Rocq [string]; a character stands for the code
      point of the same number, so the texts covered are those whose
      code points are below 256.
    - Python integers are [Z].
    - A call that may raise returns a [result]: [Ret v] or [Raise e].
      Only the two exception classes that the modelled paths can raise
      are listed in [exn].
    - The interpreter primitives the source relies on ([int] on text,
      [str.split], [re.match] with the one pattern of the source,
      [datetime.date], [datetime.timedelta], date addition, [weekday],
      [str.upper]) are modelled after CPython; the calendar algorithms
      are those of the reference implementation of [datetime].
    - [get_weekday] and [is_today], which no property below is about,
      and the text printed by [is_holiday] are left out. *)

From Stdlib Require Import ZArith List String Ascii Bool Lia Setoid DecimalString.
Import ListNotations.

Open Scope Z_scope.

(* ------------------------------------------------------------------ *)
(** ** Results and exceptions *)

Inductive exn : Type :=
| ValueError
| OverflowError.

Inductive result (A : Type) : Type :=
| Ret (a : A)
| Raise (e : exn).

Arguments Ret {A} a.
Arguments Raise {A} e.

Definition bind {A B : Type} (r : result A) (k : A -> result B) : result B :=
  match r with
  | Ret a => k a
  | Raise e => Raise e
  end.

Notation "x <- r ;; k" := (bind r (fun x => k))
  (at level 61, r at next level, right associativity).
Notation "' p <- r ;; k" := (bind r (fun p => k))
  (at level 61, p pattern, r at next level, right associativity).

(* ------------------------------------------------------------------ *)
(** ** Text primitives *)

Module Text.

Definition code (c : ascii) : Z := Z.of_N (N_of_ascii c).

Definition is_digit (c : ascii) : bool :=
  (48 <=? code c) && (code c <=? 57).

Definition digit_value (c : ascii) : Z := code c - 48.

Definition hyphen : ascii := "-"%char.
Definition space : ascii := " "%char.
Definition underscore : ascii := "_"%char.

(** [s.split(sep)] for a one-character separator: every occurrence
    cuts, and the result always has at least one item. *)
Fixpoint split (sep : ascii) (s : string) : list string :=
  match s with
  | EmptyString => [EmptyString]
  | String c s' =>
      if Ascii.eqb c sep then EmptyString :: split sep s'
      else match split sep s' with
           | [] => [String c EmptyString]
           | h :: t => String c h :: t
           end
  end.

(** [sep.join(items)]. *)
Fixpoint join (sep : string) (items : list string) : string :=
  match items with
  | [] => EmptyString
  | [x] => x
  | x :: rest => (x ++ sep ++ join sep rest)%string
  end.

(** Tuple unpacking of a list into three names: any other length is a
    [ValueError] (too many / not enough values to unpack). *)
Definition unpack3 (l : list string) : result (string * string * string) :=
  match l with
  | [a; b; c] => Ret (a, b, c)
  | _ => Raise ValueError
  end.

(** [pattern.match(s)] for a pattern that is a fixed sequence of
    one-character classes: the match is anchored at the start of [s]
    only, whatever follows the matched prefix is ignored. *)
Fixpoint match_prefix (pat : list (ascii -> bool)) (s : string) : bool :=
  match pat with
  | [] => true
  | p :: pat' =>
      match s with
      | EmptyString => false
      | String c s' => p c && match_prefix pat' s'
      end
  end.

Definition is_hyphen (c : ascii) : bool := Ascii.eqb c hyphen.

(** The compiled pattern of [is_ymd]:
    [[0-9]{4}-[0-9]{2}-[0-9]{2}] (the IGNORECASE flag changes nothing,
    the classes hold no letter). *)
Definition date_pattern : list (ascii -> bool) :=
  [is_digit; is_digit; is_digit; is_digit; is_hyphen;
   is_digit; is_digit; is_hyphen; is_digit; is_digit].

(** *** [int(text)] in base 10 *)

(** White space skipped by [int] around the literal: tab, line feed,
    vertical tab, form feed, carriage return, space, and (outside
    ASCII) next-line U+0085 and no-break space U+00A0. *)
Definition int_space (c : ascii) : bool :=
  let n := code c in
  ((9 <=? n) && (n <=? 13)) || (n =? 32) || (n =? 133) || (n =? 160).

Fixpoint lstrip (s : string) : string :=
  match s with
  | EmptyString => EmptyString
  | String c s' => if int_space c then lstrip s' else s
  end.

Definition all_space (s : string) : bool :=
  match lstrip s with
  | EmptyString => true
  | _ => false
  end.

(** Default of [sys.get_int_max_str_digits()]: a literal with more
    digits is refused with [ValueError]. *)
Definition int_max_str_digits : Z := 4300.

(** Scan of the digits: single underscores are allowed between
    digits.  [acc] is the value so far, [n] the number of digits
    read, [prev_us] tells whether the previous character was an
    underscore.  Returns the value, the digit count and the unread
    rest. *)
Fixpoint scan_digits (acc n : Z) (prev_us : bool) (s : string)
  : option (Z * Z * string) :=
  match s with
  | EmptyString => if prev_us then None else Some (acc, n, s)
  | String c s' =>
      if is_digit c then scan_digits (10 * acc + digit_value c) (n + 1) false s'
      else if Ascii.eqb c underscore then
             if prev_us then None else scan_digits acc n true s'
      else if prev_us then None else Some (acc, n, s)
  end.

Definition scan_literal (s : string) : option (Z * Z * string) :=
  match s with
  | String c s' =>
      if is_digit c then scan_digits (digit_value c) 1 false s' else None
  | EmptyString => None
  end.

Definition int_of_str (s : string) : result Z :=
  let s1 := lstrip s in
  let '(negative, s2) :=
    match s1 with
    | String c s' =>
        if Ascii.eqb c "+"%char then (false, s')
        else if Ascii.eqb c "-"%char then (true, s')
        else (false, s1)
    | EmptyString => (false, s1)
    end in
  match scan_literal s2 with
  | Some (v, n, rest) =>
      if negb (all_space rest) then Raise ValueError
      else if int_max_str_digits <? n then Raise ValueError
      else Ret (if negative then - v else v)
  | None => Raise ValueError
  end.

(** *** [str.upper] *)

(** Upper-casing of one character, as the list of code points it
    becomes: sharp s (223) becomes [SS], the micro sign (181) and
    y with diaeresis (255) leave the first 256 code points. *)
Definition upper_char (c : ascii) : list Z :=
  let n := code c in
  if (97 <=? n) && (n <=? 122) then [n - 32]
  else if n =? 181 then [924]
  else if n =? 223 then [83; 83]
  else if n =? 255 then [376]
  else if (224 <=? n) && (n <=? 254) && negb (n =? 247) then [n - 32]
  else [n].

Fixpoint upper (s : string) : list Z :=
  match s with
  | EmptyString => []
  | String c s' => upper_char c ++ upper s'
  end.

Definition codes (s : string) : list Z :=
  map code (list_ascii_of_string s).

Fixpoint codes_eqb (a b : list Z) : bool :=
  match a, b with
  | [], [] => true
  | x :: a', y :: b' => (x =? y) && codes_eqb a' b'
  | _, _ => false
  end.

(** *** [%0wd] formatting *)

Definition decimal (n : Z) : string :=
  NilZero.string_of_uint (N.to_uint (Z.to_N n)).

Fixpoint zeros (k : nat) : string :=
  match k with
  | O => EmptyString
  | S k' => String "0"%char (zeros k')
  end.

Definition pad (w : nat) (s : string) : string :=
  (zeros (w - String.length s) ++ s)%string.

(** ["%0wd" % n]: the sign counts in the width. *)
Definition zfmt (w : nat) (n : Z) : string :=
  if n <? 0 then String "-"%char (pad (w - 1) (decimal (- n)))
  else pad w (decimal n).

End Text.

(* ------------------------------------------------------------------ *)
(** ** The [datetime] primitives *)

Module Calendar.

(** [datetime.date]. *)
Record date : Type := mkdate { year : Z; month : Z; day : Z }.

(** [datetime.datetime], without time zone. *)
Record datetime : Type := mkdatetime {
  dt_date : date;
  hour : Z;
  minute : Z;
  second : Z;
  microsecond : Z
}.

Definition MINYEAR : Z := 1.
Definition MAXYEAR : Z := 9999.
Definition MAXORDINAL : Z := 3652059.

Definition is_leap (y : Z) : bool :=
  (y mod 4 =? 0) && (negb (y mod 100 =? 0) || (y mod 400 =? 0)).

(** [_DAYS_IN_MONTH]; the entry of index 0 is the placeholder [-1],
    which is also what is answered outside the table here. *)
Definition DAYS_IN_MONTH (m : Z) : Z :=
  match m with
  | 1 => 31 | 2 => 28 | 3 => 31 | 4 => 30 | 5 => 31 | 6 => 30
  | 7 => 31 | 8 => 31 | 9 => 30 | 10 => 31 | 11 => 30 | 12 => 31
  | _ => -1
  end.

(** [_DAYS_BEFORE_MONTH], same placeholder. *)
Definition DAYS_BEFORE_MONTH (m : Z) : Z :=
  match m with
  | 1 => 0 | 2 => 31 | 3 => 59 | 4 => 90 | 5 => 120 | 6 => 151
  | 7 => 181 | 8 => 212 | 9 => 243 | 10 => 273 | 11 => 304 | 12 => 334
  | _ => -1
  end.

Definition b2z (b : bool) : Z := if b then 1 else 0.

Definition days_before_year (y : Z) : Z :=
  let p := y - 1 in
  p * 365 + p / 4 - p / 100 + p / 400.

Definition days_in_month (y m : Z) : Z :=
  if (m =? 2) && is_leap y then 29 else DAYS_IN_MONTH m.

Definition days_before_month (y m : Z) : Z :=
  DAYS_BEFORE_MONTH m + b2z ((2 <? m) && is_leap y).

Definition ymd2ord (y m d : Z) : Z :=
  days_before_year y + days_before_month y m + d.

Definition DI400Y : Z := 146097.
Definition DI100Y : Z := 36524.
Definition DI4Y : Z := 1461.

Definition ord2ymd (ordinal : Z) : Z * Z * Z :=
  let n := ordinal - 1 in
  let n400 := n / DI400Y in
  let n := n mod DI400Y in
  let y := n400 * 400 + 1 in
  let n100 := n / DI100Y in
  let n := n mod DI100Y in
  let n4 := n / DI4Y in
  let n := n mod DI4Y in
  let n1 := n / 365 in
  let n := n mod 365 in
  let y := y + n100 * 100 + n4 * 4 + n1 in
  if (n1 =? 4) || (n100 =? 4) then (y - 1, 12, 31)
  else
    let leapyear := (n1 =? 3) && (negb (n4 =? 24) || (n100 =? 3)) in
    let m := Z.shiftr (n + 50) 5 in
    let preceding := DAYS_BEFORE_MONTH m + b2z ((2 <? m) && leapyear) in
    if n <? preceding then
      let m := m - 1 in
      let preceding := preceding - (DAYS_IN_MONTH m + b2z ((m =? 2) && leapyear)) in
      (y, m, n - preceding + 1)
    else (y, m, n - preceding + 1).

(** Conversion of a constructor argument to a C [int]. *)
Definition fits_c_int (z : Z) : bool :=
  (- 2147483648 <=? z) && (z <=? 2147483647).

Definition valid_ymd (y m d : Z) : bool :=
  (MINYEAR <=? y) && (y <=? MAXYEAR) &&
  (1 <=? m) && (m <=? 12) &&
  (1 <=? d) && (d <=? days_in_month y m).

(** [date(y, m, d)]: the arguments are first converted to C integers
    ([OverflowError] when one does not fit), then the ranges are
    checked ([ValueError]). *)
Definition new_date (y m d : Z) : result date :=
  if negb (fits_c_int y && fits_c_int m && fits_c_int d) then Raise OverflowError
  else if negb ((MINYEAR <=? y) && (y <=? MAXYEAR)) then Raise ValueError
  else if negb ((1 <=? m) && (m <=? 12)) then Raise ValueError
  else if negb ((1 <=? d) && (d <=? days_in_month y m)) then Raise ValueError
  else Ret (mkdate y m d).

(** [datetime(year=y, month=m, day=d)]: midnight of that day. *)
Definition new_datetime (y m d : Z) : result datetime :=
  x <- new_date y m d ;;
  Ret (mkdatetime x 0 0 0 0).

Definition toordinal (x : date) : Z := ymd2ord (year x) (month x) (day x).

Definition fromordinal (n : Z) : date :=
  let '(y, m, d) := ord2ymd n in mkdate y m d.

(** [weekday()]: Monday is 0, Sunday is 6. *)
Definition weekday (x : date) : Z := (toordinal x + 6) mod 7.

(** [timedelta(days=n)]; only whole days occur in the source. *)
Definition timedelta_days (n : Z) : result Z :=
  if (- 999999999 <=? n) && (n <=? 999999999) then Ret n
  else Raise OverflowError.

(** [timedelta(weeks=w)]. *)
Definition timedelta_weeks (w : Z) : result Z := timedelta_days (7 * w).

(** [t + delta] for a [delta] of whole days. *)
Definition datetime_add (t : datetime) (delta : Z) : result datetime :=
  let o := toordinal (dt_date t) + delta in
  if (0 <? o) && (o <=? MAXORDINAL)
  then Ret (mkdatetime (fromordinal o) (hour t) (minute t) (second t) (microsecond t))
  else Raise OverflowError.

(** [t - delta]. *)
Definition datetime_sub (t : datetime) (delta : Z) : result datetime :=
  datetime_add t (- delta).

(** Ordering of dates. *)
Definition date_compare (a b : date) : comparison :=
  match year a ?= year b with
  | Eq => match month a ?= month b with
          | Eq => day a ?= day b
          | c => c
          end
  | c => c
  end.

Definition date_eqb (a b : date) : bool :=
  match date_compare a b with Eq => true | _ => false end.
Definition date_gtb (a b : date) : bool :=
  match date_compare a b with Gt => true | _ => false end.
Definition date_geb (a b : date) : bool :=
  match date_compare a b with Lt => false | _ => true end.

(** [str(date)]: ISO format. *)
Definition str_date (x : date) : string :=
  (Text.zfmt 4 (year x) ++ "-" ++ Text.zfmt 2 (month x) ++ "-" ++ Text.zfmt 2 (day x))%string.

(** [str(datetime)]: ISO format with a space between date and time,
    the fraction shown only when it is not zero. *)
Definition str_datetime (t : datetime) : string :=
  (str_date (dt_date t) ++ " " ++
   Text.zfmt 2 (hour t) ++ ":" ++ Text.zfmt 2 (minute t) ++ ":" ++ Text.zfmt 2 (second t) ++
   (if (microsecond t =? 0)%Z then "" else "." ++ Text.zfmt 6 (microsecond t)))%string.

End Calendar.

(* ------------------------------------------------------------------ *)
(** ** The validators *)

(** [try: body except ValueError: handler]. *)
Definition except_ValueError {A : Type} (body handler : result A) : result A :=
  match body with
  | Raise ValueError => handler
  | other => other
  end.

Definition is_ymd (ymd_date : string) : result bool :=
  if negb (Text.match_prefix Text.date_pattern ymd_date) then Ret false
  else
    '(year, month, day) <- Text.unpack3 (Text.split Text.hyphen ymd_date) ;;
    except_ValueError
      (y <- Text.int_of_str year ;;
       m <- Text.int_of_str month ;;
       d <- Text.int_of_str day ;;
       _ <- Calendar.new_date y m d ;;
       Ret true)
      (Ret false).

Definition is_ymd_date (ymd_date : Calendar.date) : result bool :=
  let ymd_string := Calendar.str_date ymd_date in
  is_ymd ymd_string.

(** [text.split(" ")[0]]. *)
Definition before_space (s : string) : string :=
  match Text.split Text.space s with
  | h :: _ => h
  | [] => EmptyString
  end.

Definition is_ymd_datetime (ymd_datetime : Calendar.datetime) : result bool :=
  let dt_string := Calendar.str_datetime ymd_datetime in
  let ymd_str := before_space dt_string in
  is_ymd ymd_str.

(* ------------------------------------------------------------------ *)
(** ** The class [YMDDate] *)

(** The three text attributes of an instance.  The two other
    attributes set by the constructor are the same for every instance
    (the table of day names and an empty list) and are left out. *)
Record YMDDate : Type := mkYMDDate {
  _year : string;
  _month : string;
  _day : string
}.

(** The values a caller may pass where the source inspects the type of
    its argument. *)
Inductive pyval : Type :=
| PStr (s : string)
| PDate (d : Calendar.date)
| PDatetime (t : Calendar.datetime)
| PYMD (x : YMDDate)
| PNone
| PInt (z : Z).

Definition _ymd_from_string (ymd_string : string) : result (string * string * string) :=
  '(year, month, day) <- Text.unpack3 (Text.split Text.hyphen ymd_string) ;;
  Ret (year, month, day).

Definition _ymd_from_date (ymd_date : Calendar.date) : result (string * string * string) :=
  let ymd_str := Calendar.str_date ymd_date in
  _ymd_from_string ymd_str.

Definition _ymd_from_datetime (ymd_datetime : Calendar.datetime) : result (string * string * string) :=
  let ymd_str := before_space (Calendar.str_datetime ymd_datetime) in
  _ymd_from_string ymd_str.

(** [YMDDate(date)]. *)
Definition __init__ (date : pyval) : result YMDDate :=
  match date with
  | PStr s =>
      ok <- is_ymd s ;;
      if ok then '(y, m, d) <- _ymd_from_string s ;; Ret (mkYMDDate y m d)
      else Raise ValueError
  | PDate x =>
      ok <- is_ymd_date x ;;
      if ok then '(y, m, d) <- _ymd_from_date x ;; Ret (mkYMDDate y m d)
      else Raise ValueError
  | PDatetime t =>
      ok <- is_ymd_datetime t ;;
      if ok then '(y, m, d) <- _ymd_from_datetime t ;; Ret (mkYMDDate y m d)
      else Raise ValueError
  | _ => Raise ValueError
  end.

Definition to_date (self : YMDDate) : result Calendar.date :=
  y <- Text.int_of_str (_year self) ;;
  m <- Text.int_of_str (_month self) ;;
  d <- Text.int_of_str (_day self) ;;
  Calendar.new_date y m d.

Definition to_datetime (self : YMDDate) : result Calendar.datetime :=
  y <- Text.int_of_str (_year self) ;;
  m <- Text.int_of_str (_month self) ;;
  d <- Text.int_of_str (_day self) ;;
  Calendar.new_datetime y m d.

Definition __str__ (self : YMDDate) : string :=
  (_year self ++ "-" ++ _month self ++ "-" ++ _day self)%string.

(** *** Comparison *)

Definition same_text (self : YMDDate) (y m d : string) : bool :=
  String.eqb (_year self) y && String.eqb (_month self) m && String.eqb (_day self) d.

Definition __eq__ (self : YMDDate) (other : pyval) : result bool :=
  match other with
  | PYMD o => Ret (same_text self (_year o) (_month o) (_day o))
  | PStr s =>
      ok <- is_ymd s ;;
      if ok then '(y, m, d) <- _ymd_from_string s ;; Ret (same_text self y m d)
      else Ret false
  | PDatetime t =>
      ok <- is_ymd_datetime t ;;
      if ok then '(y, m, d) <- _ymd_from_datetime t ;; Ret (same_text self y m d)
      else Ret false
  | PDate x =>
      ok <- is_ymd_date x ;;
      if ok then '(y, m, d) <- _ymd_from_date x ;; Ret (same_text self y m d)
      else Ret false
  | _ => Ret false
  end.

(** [date_object(int(y), int(m), int(d))] on three texts. *)
Definition date_of_text (y m d : string) : result Calendar.date :=
  yi <- Text.int_of_str y ;;
  mi <- Text.int_of_str m ;;
  di <- Text.int_of_str d ;;
  Calendar.new_date yi mi di.

(** The common shape of [__gt__] and [__ge__]: [rel] is the comparison
    of the two [date] objects. *)
Definition ordering (rel : Calendar.date -> Calendar.date -> bool)
    (self : YMDDate) (other : pyval) : result bool :=
  this_date <- date_of_text (_year self) (_month self) (_day self) ;;
  match other with
  | PYMD o =>
      other_date <- date_of_text (_year o) (_month o) (_day o) ;;
      Ret (rel this_date other_date)
  | PStr s =>
      ok <- is_ymd s ;;
      if ok then
        '(y, m, d) <- _ymd_from_string s ;;
        other_date <- date_of_text y m d ;;
        Ret (rel this_date other_date)
      else Ret false
  | PDatetime t =>
      ok <- is_ymd_datetime t ;;
      if ok then
        '(y, m, d) <- _ymd_from_datetime t ;;
        other_date <- date_of_text y m d ;;
        Ret (rel this_date other_date)
      else Ret false
  | PDate x =>
      ok <- is_ymd_date x ;;
      if ok then
        '(y, m, d) <- _ymd_from_date x ;;
        other_date <- date_of_text y m d ;;
        Ret (rel this_date other_date)
      else Ret false
  | _ => Ret false
  end.

Definition __gt__ : YMDDate -> pyval -> result bool := ordering Calendar.date_gtb.
Definition __ge__ : YMDDate -> pyval -> result bool := ordering Calendar.date_geb.

(** *** Arithmetic *)

(** The integer parameters that the source first tests against [None]
    are options here. *)
Definition n_days (self : YMDDate) (days : option Z) : result YMDDate :=
  match days with
  | None => Raise ValueError
  | Some days =>
      if days >? 0 then
        t <- to_datetime self ;;
        delta <- Calendar.timedelta_days days ;;
        r <- Calendar.datetime_add t delta ;;
        __init__ (PDatetime r)
      else if days <? 0 then
        t <- to_datetime self ;;
        delta <- Calendar.timedelta_days (Z.abs days) ;;
        r <- Calendar.datetime_sub t delta ;;
        __init__ (PDatetime r)
      else
        t <- to_datetime self ;;
        __init__ (PDatetime t)
  end.

Definition n_weeks (self : YMDDate) (weeks : option Z) : result YMDDate :=
  match weeks with
  | None => Raise ValueError
  | Some weeks =>
      if weeks >? 0 then
        t <- to_datetime self ;;
        delta <- Calendar.timedelta_weeks weeks ;;
        r <- Calendar.datetime_add t delta ;;
        __init__ (PDatetime r)
      else if weeks <? 0 then
        t <- to_datetime self ;;
        delta <- Calendar.timedelta_weeks (Z.abs weeks) ;;
        r <- Calendar.datetime_sub t delta ;;
        __init__ (PDatetime r)
      else
        t <- to_datetime self ;;
        __init__ (PDatetime t)
  end.

(** The text [units.upper()] compared with a one-letter literal. *)
Definition upper_is (units literal : string) : bool :=
  Text.codes_eqb (Text.upper units) (Text.codes literal).

(** A step of [delta] built by [mk], forwards when [n > 0], backwards
    when [n < 0]; when neither holds the source falls off the end of
    the method, which returns [None]. *)
Definition jump (self : YMDDate) (n : Z) (mk : Z -> result Z) (amount : Z)
  : result (option YMDDate) :=
  if n >? 0 then
    t <- to_datetime self ;;
    delta <- mk amount ;;
    r <- Calendar.datetime_add t delta ;;
    x <- __init__ (PDatetime r) ;;
    Ret (Some x)
  else if n <? 0 then
    t <- to_datetime self ;;
    delta <- mk amount ;;
    r <- Calendar.datetime_sub t delta ;;
    x <- __init__ (PDatetime r) ;;
    Ret (Some x)
  else Ret None.

Definition n_months (self : YMDDate) (months : option Z) (units : string)
    (weeks_per_month days_per_month : Z) : result (option YMDDate) :=
  match months with
  | None => Raise ValueError
  | Some months =>
      if months =? 0 then
        t <- to_datetime self ;;
        x <- __init__ (PDatetime t) ;;
        Ret (Some x)
      else if upper_is units "W" then
        let number_of_weeks := Z.abs (weeks_per_month * months) in
        jump self months Calendar.timedelta_weeks number_of_weeks
      else if upper_is units "D" then
        let number_of_days := Z.abs (days_per_month * months) in
        jump self months Calendar.timedelta_days number_of_days
      else Raise ValueError
  end.

Definition n_years (self : YMDDate) (years : option Z) (units : string)
    (days_per_year weeks_per_year : Z) : result (option YMDDate) :=
  match years with
  | None => Raise ValueError
  | Some years =>
      if years =? 0 then
        t <- to_datetime self ;;
        x <- __init__ (PDatetime t) ;;
        Ret (Some x)
      else if String.eqb units "D" then
        let number_of_days := Z.abs (years * days_per_year) in
        jump self years Calendar.timedelta_days number_of_days
      else if String.eqb units "W" then
        let number_of_weeks := Z.abs (years * weeks_per_year) in
        jump self years Calendar.timedelta_weeks number_of_weeks
      else Raise ValueError
  end.

Definition next_week (self : YMDDate) : result YMDDate :=
  t <- to_datetime self ;;
  delta <- Calendar.timedelta_days 7 ;;
  next_week <- Calendar.datetime_add t delta ;;
  __init__ (PDatetime next_week).

Definition tomorrow (self : YMDDate) : result YMDDate :=
  t <- to_datetime self ;;
  delta <- Calendar.timedelta_days 1 ;;
  next_day <- Calendar.datetime_add t delta ;;
  __init__ (PDatetime next_day).

(** [next_month()] and [next_year()] with [full_date] left at [True]. *)
Definition next_month (self : YMDDate) : result (option YMDDate) :=
  n_months self (Some 1) "W" 4 30.

Definition next_year (self : YMDDate) : result (option YMDDate) :=
  n_years self (Some 1) "W" 365 52.

(** *** Queries *)

Definition is_weekend (self : YMDDate) : result bool :=
  x <- to_date self ;;
  Ret (Calendar.weekday x >=? 5).

Definition is_weekday (self : YMDDate) : result bool :=
  x <- to_date self ;;
  Ret (Calendar.weekday x <? 5).

(** [is_holiday]: the answer is [True], [False] or [None].  The message
    printed before [None] is returned is not modelled. *)
Fixpoint holiday_loop (self : YMDDate) (holidays : list pyval) : result (option bool) :=
  match holidays with
  | [] => Ret (Some false)
  | holiday :: rest =>
      match holiday with
      | PStr s =>
          match __init__ (PStr s) with
          | Raise ValueError => Ret None
          | Raise e => Raise e
          | Ret ymd_holiday =>
              same <- __eq__ ymd_holiday (PYMD self) ;;
              if same then Ret (Some true) else holiday_loop self rest
          end
      | PYMD h =>
          same <- __eq__ h (PYMD self) ;;
          if same then Ret (Some true) else holiday_loop self rest
      | _ => holiday_loop self rest
      end
  end.

Definition is_holiday (self : YMDDate) (holidays : list pyval) : result (option bool) :=
  if (List.length holidays =? 0)%nat then Ret (Some false)
  else holiday_loop self holidays.

(** The holiday provider: [USFederalHolidayCalendar().holidays(start,
    end).to_pydatetime()], the holidays between two dates given as
    text.  It is outside the repository and may raise. *)
Definition provider : Type := string -> string -> result (list Calendar.datetime).

Section HolidayCalendar.

Variable federal_holidays : provider.

Definition is_us_federal_holiday (self : YMDDate) : result bool :=
  let start_date := (_year self ++ "-01-01")%string in
  let end_date := (_year self ++ "-12-31")%string in
  holidays_datetime <- federal_holidays start_date end_date ;;
  let holidays := map Calendar.dt_date holidays_datetime in
  x <- to_date self ;;
  Ret (existsb (Calendar.date_eqb x) holidays).

(** The condition of the loop of [next_business_day]; [or] does not
    evaluate its right operand when the left one is true. *)
Definition skipped (next_day : YMDDate) : result bool :=
  h <- is_us_federal_holiday next_day ;;
  if h then Ret true else is_weekend next_day.

(** The [while] loop, with a bound on the number of tests of its
    condition: [None] when the bound is reached. *)
Fixpoint business_loop (fuel : nat) (next_day : YMDDate) : option (result YMDDate) :=
  match fuel with
  | O => None
  | S fuel' =>
      match skipped next_day with
      | Raise e => Some (Raise e)
      | Ret false => Some (Ret next_day)
      | Ret true =>
          match tomorrow next_day with
          | Raise e => Some (Raise e)
          | Ret next_day' => business_loop fuel' next_day'
          end
      end
  end.

Definition next_business_day (fuel : nat) (self : YMDDate) : option (result YMDDate) :=
  match tomorrow self with
  | Raise e => Some (Raise e)
  | Ret next_day => business_loop fuel next_day
  end.

End HolidayCalendar.

(* ------------------------------------------------------------------ *)
(** ** Vocabulary of the statements *)

(** Text made of decimal digits only, and the number it spells. *)
Fixpoint all_digits (s : string) : bool :=
  match s with
  | EmptyString => true
  | String c s' => Text.is_digit c && all_digits s'
  end.

Fixpoint value_from (acc : Z) (s : string) : Z :=
  match s with
  | EmptyString => acc
  | String c s' => value_from (10 * acc + Text.digit_value c) s'
  end.

Definition value (s : string) : Z := value_from 0 s.

Fixpoint occurs (sep : ascii) (s : string) : bool :=
  match s with
  | EmptyString => false
  | String c s' => Ascii.eqb c sep || occurs sep s'
  end.

(** A predicate checked on [k] consecutive integers from [lo]. *)
Fixpoint check_range (f : Z -> bool) (lo : Z) (k : nat) : bool :=
  match k with
  | O => true
  | S k' => f lo && check_range f (lo + 1) k'
  end.

Definition digits_of_width (w : nat) (n : Z) : bool :=
  all_digits (Text.zfmt w n) && (String.length (Text.zfmt w n) =? w)%nat
  && (value (Text.zfmt w n) =? n).

Definition valid_date (x : Calendar.date) : bool :=
  Calendar.valid_ymd (Calendar.year x) (Calendar.month x) (Calendar.day x).

(** The instance obtained from a [date] or [datetime] value: the three
    fields printed on 4, 2 and 2 digits. *)
Definition ymd_of_date (x : Calendar.date) : YMDDate :=
  mkYMDDate (Text.zfmt 4 (Calendar.year x)) (Text.zfmt 2 (Calendar.month x))
            (Text.zfmt 2 (Calendar.day x)).

(** The instance for the day [i] days after [x]. *)
Definition day_at (x : Calendar.date) (i : Z) : YMDDate :=
  ymd_of_date (Calendar.fromordinal (Calendar.toordinal x + i)).

(** An instance whose text is exactly 4, 2 and 2 digits. *)
Definition zero_padded (a : YMDDate) : bool :=
  all_digits (_year a) && (String.length (_year a) =? 4)%nat &&
  all_digits (_month a) && (String.length (_month a) =? 2)%nat &&
  all_digits (_day a) && (String.length (_day a) =? 2)%nat.

(** The year, month and day of an instance read as integers form a date
    that [datetime.date] accepts. *)
Definition constructible (a : YMDDate) : Prop :=
  exists yi mi di,
    Text.int_of_str (_year a) = Ret yi /\
    Text.int_of_str (_month a) = Ret mi /\
    Text.int_of_str (_day a) = Ret di /\
    Calendar.valid_ymd yi mi di = true.

(** A call that returns an instance either raises or returns a
    constructible one. *)
Definition fails_or_valid (r : result YMDDate) : Prop :=
  (exists e, r = Raise e) \/ (exists a, r = Ret a /\ constructible a).

Definition fails_or_valid_opt (r : result (option YMDDate)) : Prop :=
  (exists e, r = Raise e) \/ r = Ret None \/ (exists a, r = Ret (Some a) /\ constructible a).

(** The shape YYYY-MM-DD as the specification words it: exactly four
    digits, a hyphen, exactly two digits, a hyphen, exactly two digits
    and nothing more; the answer is the three numbers. *)
Definition ymd_fields (s : string) : option (Z * Z * Z) :=
  match s with
  | String y1 (String y2 (String y3 (String y4 (String h1
      (String m1 (String m2 (String h2 (String d1 (String d2 EmptyString))))))))) =>
      if forallb Text.is_digit [y1; y2; y3; y4; m1; m2; d1; d2]
         && Text.is_hyphen h1 && Text.is_hyphen h2
      then Some (1000 * Text.digit_value y1 + 100 * Text.digit_value y2
                 + 10 * Text.digit_value y3 + Text.digit_value y4,
                 10 * Text.digit_value m1 + Text.digit_value m2,
                 10 * Text.digit_value d1 + Text.digit_value d2)
      else None
  | _ => None
  end.

Definition midnight (y m d : Z) : Calendar.datetime :=
  Calendar.mkdatetime (Calendar.mkdate y m d) 0 0 0 0.

(** A sample holiday provider for the examples: the eleven federal
    holidays of 2024 when asked for that year, no holiday otherwise. *)
Definition holidays_2024 : provider := fun start_date end_date =>
  if String.eqb start_date "2024-01-01" && String.eqb end_date "2024-12-31"
  then Ret [midnight 2024 1 1; midnight 2024 1 15; midnight 2024 2 19;
            midnight 2024 5 27; midnight 2024 6 19; midnight 2024 7 4;
            midnight 2024 9 2; midnight 2024 10 14; midnight 2024 11 11;
            midnight 2024 11 28; midnight 2024 12 25]
  else Ret [].

(** The two instances used to exhibit text that differs while the
    numbers agree. *)
Definition jan11_long : YMDDate := mkYMDDate "2024" "01" "011".
Definition jan11 : YMDDate := mkYMDDate "2024" "01" "11".

(** Less-than is not defined by the class; it is derived as the
    negation of greater-or-equal. *)
Definition less_than (a : YMDDate) (b : pyval) : result bool :=
  r <- __ge__ a b ;; Ret (negb r).

Definition exactly_one (p q r : bool) : bool :=
  (p && negb q && negb r) || (negb p && q && negb r) || (negb p && negb q && r).

(** A candidate of [is_holiday] that is read without error and is not
    equal to [self]. *)
Definition passes (self : YMDDate) (c : pyval) : Prop :=
  match c with
  | PStr s => exists h, __init__ (PStr s) = Ret h /\ __eq__ h (PYMD self) = Ret false
  | PYMD h => __eq__ h (PYMD self) = Ret false
  | _ => True
  end.

(** A candidate equal to [self]. *)
Definition hits (self : YMDDate) (c : pyval) : Prop :=
  match c with
  | PStr s => exists h, __init__ (PStr s) = Ret h /\ __eq__ h (PYMD self) = Ret true
  | PYMD h => __eq__ h (PYMD self) = Ret true
  | _ => False
  end.

(** A day that ends the search of [next_business_day]: neither a
    federal holiday nor a week-end day. *)
Definition business_day (holidays : provider) (d : YMDDate) : Prop :=
  is_us_federal_holiday holidays d = Ret false /\ is_weekend d = Ret false.

(** A day that the search steps over: a federal holiday, or a week-end
    day. *)
Definition passed_over (holidays : provider) (d : YMDDate) : Prop :=
  is_us_federal_holiday holidays d = Ret true \/
  (is_us_federal_holiday holidays d = Ret false /\ is_weekend d = Ret true).

(* ------------------------------------------------------------------ *)
(** ** The other queries of the class *)

(** [self._DAYS_OF_THE_WEEK], the same list in every instance. *)
Definition DAYS_OF_THE_WEEK : list string :=
  ["Monday"; "Tuesday"; "Wednesday"; "Thursday"; "Friday"; "Saturday"; "Sunday"]%string.

(** The default of the parameter [abbreviations] of [get_weekday]. *)
Definition default_abbreviations : list string :=
  ["Mon"; "Tue"; "Wed"; "Thu"; "Fri"; "Sat"; "Sun"]%string.

(** [get_weekday] returns a number or a name. *)
Inductive weekday_answer : Type :=
| DayNumber (n : Z)
| DayName (s : string).

(** [table[day_number]] for a day number that is not negative.  Where
    the source indexes, the table has seven entries and the day number
    is at most six, so the lookup is always inside the table; the empty
    text answered outside is never reached. *)
Definition item (table : list string) (day_number : Z) : string :=
  nth (Z.to_nat day_number) table EmptyString.

(** [get_weekday(name, abbreviated, abbreviations)]; [name] is a
    boolean or [None]. *)
Definition get_weekday (self : YMDDate) (name : option bool) (abbreviated : bool)
    (abbreviations : list string) : result weekday_answer :=
  match name with
  | None => Raise ValueError
  | Some name =>
      if negb (List.length abbreviations =? 7)%nat then Raise ValueError
      else if negb name then
        x <- to_date self ;;
        Ret (DayNumber (Calendar.weekday x))
      else
        x <- to_date self ;;
        let day_number := Calendar.weekday x in
        if abbreviated then Ret (DayName (item abbreviations day_number))
        else Ret (DayName (item DAYS_OF_THE_WEEK day_number))
  end.

(** [is_today()]; [today] is the value of [dt.today()].  The three tests
    are joined by [and], which stops at the first one that fails. *)
Definition is_today (today : Calendar.datetime) (self : YMDDate) : result bool :=
  y <- Text.int_of_str (_year self) ;;
  if y =? Calendar.year (Calendar.dt_date today) then
    m <- Text.int_of_str (_month self) ;;
    if m =? Calendar.month (Calendar.dt_date today) then
      d <- Text.int_of_str (_day self) ;;
      Ret (d =? Calendar.day (Calendar.dt_date today))
    else Ret false
  else Ret false.

(** [next_year(full_date=False)]: [int(self.year) + 1]. *)
Definition next_year_number (self : YMDDate) : result Z :=
  y <- Text.int_of_str (_year self) ;;
  Ret (y + 1).

(** A returned instance wrapped as the methods that may fall off their
    end return it. *)
Definition some_of (r : result YMDDate) : result (option YMDDate) :=
  x <- r ;; Ret (Some x).

(** The kinds of value that the constructor and the comparisons read
    as a date. *)
Definition date_like (v : pyval) : bool :=
  match v with
  | PStr _ | PDate _ | PDatetime _ => true
  | _ => false
  end.

(** The kinds of candidate that [is_holiday] looks at. *)
Definition candidate_kind (c : pyval) : bool :=
  match c with
  | PStr _ | PYMD _ => true
  | _ => false
  end.

(** An operand that the comparisons do not read as a date: a value of
    another kind, or a text, [date] or [datetime] to which the validator
    of its kind answers false. *)
Definition refused (v : pyval) : Prop :=
  match v with
  | PStr s => is_ymd s = Ret false
  | PDate x => is_ymd_date x = Ret false
  | PDatetime t => is_ymd_datetime t = Ret false
  | PYMD _ => False
  | PNone | PInt _ => True
  end.

(* ------------------------------------------------------------------ *)
(** * Properties *)

Import Calendar.

(** ** Boolean tests as propositions, calendar arithmetic *)

Lemma negb_eqb_true a b : negb (a =? b) = true <-> a <> b.
Proof. rewrite negb_true_iff. apply Z.eqb_neq. Qed.

Ltac b2p :=
  repeat (rewrite ?andb_true_iff, ?orb_true_iff, ?andb_false_iff, ?orb_false_iff,
      ?negb_eqb_true, ?negb_false_iff, ?negb_true_iff,
      ?Z.eqb_eq, ?Z.eqb_neq, ?Z.leb_le, ?Z.leb_gt, ?Z.ltb_lt, ?Z.ltb_ge in * ).

Lemma shiftr5 n : Z.shiftr n 5 = n / 32.
Proof. rewrite Z.shiftr_div_pow2 by lia. reflexivity. Qed.

Lemma month_cases m : 1 <= m <= 12 ->
  m = 1 \/ m = 2 \/ m = 3 \/ m = 4 \/ m = 5 \/ m = 6 \/ m = 7 \/ m = 8 \/ m = 9 \/ m = 10 \/ m = 11 \/ m = 12.
Proof. lia. Qed.

Lemma dby_decomp a b c e :
  0 <= b <= 3 -> 0 <= c <= 24 -> 0 <= e <= 3 ->
  days_before_year (400 * a + 100 * b + 4 * c + e + 1)
  = 146097 * a + 36524 * b + 1461 * c + 365 * e.
Proof.
  intros Hb Hc He. unfold days_before_year. cbv zeta.
  replace (400 * a + 100 * b + 4 * c + e + 1 - 1) with (400 * a + 100 * b + 4 * c + e) by lia.
  assert (E4 : (400 * a + 100 * b + 4 * c + e) / 4 = 100 * a + 25 * b + c).
  { symmetry. apply Z.div_unique with (r := e); lia. }
  assert (E100 : (400 * a + 100 * b + 4 * c + e) / 100 = 4 * a + b).
  { symmetry. apply Z.div_unique with (r := 4 * c + e); lia. }
  assert (E400 : (400 * a + 100 * b + 4 * c + e) / 400 = a).
  { symmetry. apply Z.div_unique with (r := 100 * b + 4 * c + e); lia. }
  rewrite E4, E100, E400. lia.
Qed.

Lemma is_leap_decomp a b c e :
  0 <= b <= 3 -> 0 <= c <= 24 -> 0 <= e <= 3 ->
  is_leap (400 * a + 100 * b + 4 * c + e + 1)
  = (e =? 3) && (negb (c =? 24) || (b =? 3)).
Proof.
  intros Hb Hc He. unfold is_leap.
  set (y := 400 * a + 100 * b + 4 * c + e + 1).
  assert (M4 : y mod 4 = (e + 1) mod 4).
  { unfold y. replace (400 * a + 100 * b + 4 * c + e + 1) with ((e + 1) + (100 * a + 25 * b + c) * 4) by lia.
    apply Z.mod_add. lia. }
  assert (M100 : y mod 100 = (4 * c + e + 1) mod 100).
  { unfold y. replace (400 * a + 100 * b + 4 * c + e + 1) with ((4 * c + e + 1) + (4 * a + b) * 100) by lia.
    apply Z.mod_add. lia. }
  assert (M400 : y mod 400 = (100 * b + 4 * c + e + 1) mod 400).
  { unfold y. replace (400 * a + 100 * b + 4 * c + e + 1) with ((100 * b + 4 * c + e + 1) + a * 400) by lia.
    apply Z.mod_add. lia. }
  rewrite M4, M100, M400. clearbody y. clear M4 M100 M400.
  apply eq_true_iff_eq. b2p.
  assert (He' : e = 3 \/ e < 3) by lia.
  assert (Hc' : c = 24 \/ c < 24) by lia.
  assert (Hb' : b = 3 \/ b < 3) by lia.
  destruct He' as [-> | He'].
  - destruct Hc' as [-> | Hc'].
    + destruct Hb' as [-> | Hb'].
      * change ((3 + 1) mod 4) with 0. change ((4 * 24 + 3 + 1) mod 100) with 0.
        change ((100 * 3 + 4 * 24 + 3 + 1) mod 400) with 0. lia.
      * rewrite (Z.mod_small (100 * b + 4 * 24 + 3 + 1) 400) by lia.
        change ((3 + 1) mod 4) with 0. change ((4 * 24 + 3 + 1) mod 100) with 0. lia.
    + rewrite (Z.mod_small (4 * c + 3 + 1) 100) by lia. change ((3 + 1) mod 4) with 0. lia.
  - rewrite (Z.mod_small (e + 1) 4) by lia. lia.
Qed.

Lemma div_step y k : 0 < k ->
  y / k = (y - 1) / k + b2z (y mod k =? 0).
Proof.
  intros Hk. unfold b2z.
  pose proof (Z.div_mod y k ltac:(lia)) as E.
  pose proof (Z.mod_pos_bound y k Hk) as B.
  destruct (Z.eqb_spec (y mod k) 0) as [H0 | H0].
  - assert ((y - 1) / k = y / k - 1); [|lia].
    symmetry. apply Z.div_unique with (r := k - 1); lia.
  - assert ((y - 1) / k = y / k); [|lia].
    symmetry. apply Z.div_unique with (r := y mod k - 1); lia.
Qed.

Lemma dby_step y : days_before_year (y + 1) = days_before_year y + 365 + b2z (is_leap y).
Proof.
  unfold days_before_year, is_leap. cbv zeta.
  replace (y + 1 - 1) with y by lia.
  rewrite (div_step y 4), (div_step y 100), (div_step y 400) by lia.
  assert (H100 : y mod 100 = 0 -> y mod 4 = 0).
  { intros H. rewrite <- (Z.mod_mod_divide y 100 4) by (exists 25; lia). rewrite H. reflexivity. }
  assert (H400 : y mod 400 = 0 -> y mod 100 = 0).
  { intros H. rewrite <- (Z.mod_mod_divide y 400 100) by (exists 4; lia). rewrite H. reflexivity. }
  unfold b2z.
  destruct (Z.eqb_spec (y mod 4) 0), (Z.eqb_spec (y mod 100) 0), (Z.eqb_spec (y mod 400) 0);
    cbn [andb orb negb]; try lia; tauto.
Qed.

Lemma dby_mono y y' : y <= y' -> days_before_year y <= days_before_year y'.
Proof.
  intros H. replace y' with (y + (y' - y)) by lia.
  assert (Hk : 0 <= y' - y) by lia. revert Hk. generalize (y' - y). clear.
  apply (natlike_ind (fun k => days_before_year y <= days_before_year (y + k))).
  - rewrite Z.add_0_r. lia.
  - intros k Hk IH. replace (y + Z.succ k) with ((y + k) + 1) by lia.
    rewrite dby_step. unfold b2z. destruct (is_leap _); lia.
Qed.

Ltac eval_tests :=
  repeat match goal with
  | |- context [Z.pos ?p - 1] =>
      let v := eval vm_compute in (Z.pos p - 1) in change (Z.pos p - 1) with v
  | |- context [?x =? ?y] =>
      let v := eval vm_compute in (x =? y) in
      lazymatch v with
      | true => change (x =? y) with true
      | false => change (x =? y) with false
      end
  | |- context [?x <? ?y] =>
      let v := eval vm_compute in (x <? y) in
      lazymatch v with
      | true => change (x <? y) with true
      | false => change (x <? y) with false
      end
  end;
  cbn [DAYS_BEFORE_MONTH DAYS_IN_MONTH b2z andb orb negb].

Lemma year_bound a b c e r n :
  1 <= n <= MAXORDINAL ->
  n - 1 = 146097 * a + 36524 * b + 1461 * c + 365 * e + r ->
  0 <= b <= 3 -> 0 <= c <= 24 -> 0 <= e <= 3 -> 0 <= r <= 365 ->
  0 <= a /\ 1 <= 400 * a + 100 * b + 4 * c + e + 1 <= 9999.
Proof.
  unfold MAXORDINAL. intros Hn E Hb Hc He Hr.
  assert (Ha : 0 <= a <= 24) by lia.
  split; [lia|]. split; [lia|].
  assert (Ha' : a = 24 \/ a <= 23) by lia.
  destruct Ha' as [-> | Ha']; [|lia].
  assert (Hb' : b = 3 \/ b <= 2) by lia.
  destruct Hb' as [-> | Hb']; [|lia].
  assert (Hc' : c = 24 \/ c <= 23) by lia.
  destruct Hc' as [-> | Hc']; lia.
Qed.

Lemma ord2ymd_sound n : 1 <= n <= MAXORDINAL ->
  let '(y, m, d) := ord2ymd n in
  valid_ymd y m d = true /\ ymd2ord y m d = n.
Proof.
  intros Hn. unfold ord2ymd, DI400Y, DI100Y, DI4Y in *. cbv zeta.
  rewrite shiftr5.
  pose proof (Z.div_mod (n - 1) 146097 ltac:(lia)) as E400.
  pose proof (Z.mod_pos_bound (n - 1) 146097 ltac:(lia)) as B400.
  set (a := (n - 1) / 146097) in *. set (r400 := (n - 1) mod 146097) in *.
  pose proof (Z.div_mod r400 36524 ltac:(lia)) as E100.
  pose proof (Z.mod_pos_bound r400 36524 ltac:(lia)) as B100.
  set (b := r400 / 36524) in *. set (r100 := r400 mod 36524) in *.
  pose proof (Z.div_mod r100 1461 ltac:(lia)) as E4.
  pose proof (Z.mod_pos_bound r100 1461 ltac:(lia)) as B4.
  set (c := r100 / 1461) in *. set (r4 := r100 mod 1461) in *.
  pose proof (Z.div_mod r4 365 ltac:(lia)) as E1.
  pose proof (Z.mod_pos_bound r4 365 ltac:(lia)) as B1.
  set (e := r4 / 365) in *. set (r := r4 mod 365) in *.
  assert (Hb : 0 <= b <= 4) by lia.
  assert (Hc : 0 <= c <= 24) by lia.
  assert (He : 0 <= e <= 4) by lia.
  clearbody a r400 b r100 c r4 e r.
  destruct ((e =? 4) || (b =? 4)) eqn:Hend; b2p.
  - (* last day of a leap year *)
    assert (Hr : r = 0) by lia.
    assert (Hcase : (b = 4 /\ c = 0 /\ e = 0) \/ (b <= 3 /\ c <= 23 /\ e = 4)) by lia.
    destruct Hcase as [(-> & -> & ->) | (Hb3 & Hc3 & ->)].
    + replace (a * 400 + 1 + 4 * 100 + 0 * 4 + 0 - 1) with (400 * a + 100 * 3 + 4 * 24 + 3 + 1) by lia.
      pose proof (year_bound a 3 24 3 365 n Hn ltac:(lia) ltac:(lia) ltac:(lia) ltac:(lia) ltac:(lia)) as [Ha Hy].
      unfold valid_ymd, ymd2ord, days_before_month, days_in_month.
      rewrite dby_decomp, is_leap_decomp by lia.
      unfold MINYEAR, MAXYEAR. eval_tests. b2p. lia.
    + replace (a * 400 + 1 + b * 100 + c * 4 + 4 - 1) with (400 * a + 100 * b + 4 * c + 3 + 1) by lia.
      pose proof (year_bound a b c 3 365 n Hn ltac:(lia) ltac:(lia) ltac:(lia) ltac:(lia) ltac:(lia)) as [Ha Hy].
      unfold valid_ymd, ymd2ord, days_before_month, days_in_month.
      rewrite dby_decomp, is_leap_decomp by lia.
      unfold MINYEAR, MAXYEAR.
      replace (c =? 24) with false by (symmetry; apply Z.eqb_neq; lia).
      eval_tests. b2p. lia.
  - replace (a * 400 + 1 + b * 100 + c * 4 + e) with (400 * a + 100 * b + 4 * c + e + 1) by lia.
    pose proof (year_bound a b c e r n Hn ltac:(lia) ltac:(lia) ltac:(lia) ltac:(lia) ltac:(lia)) as [Ha Hy].
    set (leap := (e =? 3) && (negb (c =? 24) || (b =? 3))).
    assert (Hm : 1 <= (r + 50) / 32 <= 12) by (Z.div_mod_to_equations; lia).
    assert (Em : 32 * ((r + 50) / 32) <= r + 50 < 32 * ((r + 50) / 32) + 32)
      by (Z.div_mod_to_equations; lia).
    set (m := (r + 50) / 32) in *. clearbody m.
    assert (Hres : forall mm dd,
               1 <= mm <= 12 -> 1 <= dd <= DAYS_IN_MONTH mm + b2z ((mm =? 2) && leap) ->
               DAYS_BEFORE_MONTH mm + b2z ((2 <? mm) && leap) + dd = r + 1 ->
               valid_ymd (400 * a + 100 * b + 4 * c + e + 1) mm dd = true /\
               ymd2ord (400 * a + 100 * b + 4 * c + e + 1) mm dd = n).
    { intros mm dd Hmm Hdd Hsum.
      unfold valid_ymd, ymd2ord, days_before_month, days_in_month.
      rewrite dby_decomp, is_leap_decomp by lia. fold leap.
      unfold MINYEAR, MAXYEAR. split.
      - b2p. repeat split; try lia.
        unfold b2z in Hdd. destruct ((mm =? 2) && leap) eqn:Hl.
        + b2p. destruct Hl as [-> _]. cbn [DAYS_IN_MONTH] in *. lia.
        + destruct (month_cases mm Hmm) as [?|[?|[?|[?|[?|[?|[?|[?|[?|[?|[?|?]]]]]]]]]]]; subst mm;
            cbn [DAYS_IN_MONTH] in *; lia.
      - lia. }
    clear Hend. clearbody leap.
    destruct (month_cases m Hm) as [?|[?|[?|[?|[?|[?|[?|[?|[?|[?|[?|?]]]]]]]]]]]; subst m;
      destruct leap; eval_tests;
      match goal with
      | |- context [if ?x <? ?y then _ else _] => destruct (Z.ltb_spec x y)
      end; apply Hres; eval_tests; lia.
Qed.

Lemma valid_ymd_iff y m d :
  valid_ymd y m d = true <->
  1 <= y <= 9999 /\ 1 <= m <= 12 /\ 1 <= d <= days_in_month y m.
Proof. unfold valid_ymd, MINYEAR, MAXYEAR. b2p. lia. Qed.

Lemma day_of_year_bound y m d :
  1 <= m <= 12 -> 1 <= d <= days_in_month y m ->
  1 <= days_before_month y m + d <= 365 + b2z (is_leap y).
Proof.
  intros Hm Hd. unfold days_before_month, days_in_month in *.
  destruct (month_cases m Hm) as [?|[?|[?|[?|[?|[?|[?|[?|[?|[?|[?|?]]]]]]]]]]]; subst m;
    destruct (is_leap y); revert Hd; eval_tests; lia.
Qed.

Lemma day_of_year_inj y m1 d1 m2 d2 :
  1 <= m1 <= 12 -> 1 <= d1 <= days_in_month y m1 ->
  1 <= m2 <= 12 -> 1 <= d2 <= days_in_month y m2 ->
  days_before_month y m1 + d1 = days_before_month y m2 + d2 ->
  m1 = m2 /\ d1 = d2.
Proof.
  intros Hm1 Hd1 Hm2 Hd2. unfold days_before_month, days_in_month in *.
  destruct (is_leap y);
  destruct (month_cases m1 Hm1) as [?|[?|[?|[?|[?|[?|[?|[?|[?|[?|[?|?]]]]]]]]]]]; subst m1;
  destruct (month_cases m2 Hm2) as [?|[?|[?|[?|[?|[?|[?|[?|[?|[?|[?|?]]]]]]]]]]]; subst m2;
  revert Hd1 Hd2; eval_tests; lia.
Qed.

Lemma ymd2ord_bounds y m d :
  valid_ymd y m d = true ->
  days_before_year y < ymd2ord y m d <= days_before_year (y + 1).
Proof.
  rewrite valid_ymd_iff. intros (Hy & Hm & Hd).
  pose proof (day_of_year_bound y m d Hm Hd). rewrite dby_step. unfold ymd2ord. lia.
Qed.

Lemma ymd2ord_range y m d :
  valid_ymd y m d = true -> 1 <= ymd2ord y m d <= MAXORDINAL.
Proof.
  intros H. pose proof (ymd2ord_bounds y m d H) as B.
  apply valid_ymd_iff in H. destruct H as (Hy & _).
  pose proof (dby_mono 1 y ltac:(lia)) as L.
  pose proof (dby_mono (y + 1) 10000 ltac:(lia)) as U.
  change (days_before_year 1) with 0 in L.
  change (days_before_year 10000) with 3652059 in U.
  unfold MAXORDINAL. lia.
Qed.

Lemma ymd2ord_inj y1 m1 d1 y2 m2 d2 :
  valid_ymd y1 m1 d1 = true -> valid_ymd y2 m2 d2 = true ->
  ymd2ord y1 m1 d1 = ymd2ord y2 m2 d2 ->
  y1 = y2 /\ m1 = m2 /\ d1 = d2.
Proof.
  intros V1 V2 E.
  pose proof (ymd2ord_bounds _ _ _ V1) as B1.
  pose proof (ymd2ord_bounds _ _ _ V2) as B2.
  assert (Hy : y1 = y2).
  { destruct (Z.lt_trichotomy y1 y2) as [L | [L | L]]; [|exact L|].
    - pose proof (dby_mono (y1 + 1) y2 ltac:(lia)). lia.
    - pose proof (dby_mono (y2 + 1) y1 ltac:(lia)). lia. }
  subst y2. split; [reflexivity|].
  apply valid_ymd_iff in V1, V2. destruct V1 as (_ & Hm1 & Hd1), V2 as (_ & Hm2 & Hd2).
  apply (day_of_year_inj y1); try assumption. unfold ymd2ord in E. lia.
Qed.

Lemma ord2ymd_ymd2ord y m d :
  valid_ymd y m d = true -> ord2ymd (ymd2ord y m d) = (y, m, d).
Proof.
  intros V. pose proof (ymd2ord_range _ _ _ V) as R.
  pose proof (ord2ymd_sound _ R) as S.
  destruct (ord2ymd (ymd2ord y m d)) as [[y' m'] d']. destruct S as [V' E].
  destruct (ymd2ord_inj _ _ _ _ _ _ V' V E) as (-> & -> & ->). reflexivity.
Qed.

(** ** Text *)

Lemma digit_class c :
  Text.is_digit c = true ->
  Text.int_space c = false /\ Ascii.eqb c "+" = false /\ Ascii.eqb c "-" = false
  /\ Ascii.eqb c " " = false /\ Ascii.eqb c "_" = false.
Proof.
  destruct c as [[] [] [] [] [] [] [] []]; vm_compute; intros H;
    first [discriminate H | repeat split].
Qed.

Lemma scan_digits_all s : forall acc n,
  all_digits s = true ->
  Text.scan_digits acc n false s = Some (value_from acc s, n + Z.of_nat (String.length s), EmptyString).
Proof.
  induction s as [|c s IH]; intros acc n H; cbn [Text.scan_digits value_from String.length].
  - f_equal. f_equal. f_equal. lia.
  - cbn [all_digits] in H. apply andb_true_iff in H. destruct H as [Hc Hs].
    rewrite Hc. rewrite IH by exact Hs. f_equal. f_equal. f_equal. lia.
Qed.

Lemma int_of_digits s :
  s <> EmptyString -> all_digits s = true ->
  Z.of_nat (String.length s) <= Text.int_max_str_digits ->
  Text.int_of_str s = Ret (value s).
Proof.
  intros Hne Hd Hlen. destruct s as [|c s]; [congruence|].
  cbn [all_digits] in Hd. apply andb_true_iff in Hd. destruct Hd as [Hc Hs].
  destruct (digit_class c Hc) as (Hsp & Hplus & Hminus & _).
  unfold Text.int_of_str. cbn [Text.lstrip]. rewrite Hsp, Hplus, Hminus.
  unfold Text.scan_literal. rewrite Hc. rewrite scan_digits_all by exact Hs.
  unfold Text.all_space. cbn [Text.lstrip negb].
  cbn [String.length] in Hlen.
  replace (Text.int_max_str_digits <? 1 + Z.of_nat (String.length s)) with false
    by (symmetry; apply Z.ltb_ge; lia).
  unfold value. cbn [value_from]. reflexivity.
Qed.

Lemma all_digits_no (sep : ascii) s :
  Text.is_digit sep = false -> all_digits s = true -> occurs sep s = false.
Proof.
  intros Hsep. induction s as [|c s IH]; cbn; [reflexivity|].
  intros H. apply andb_true_iff in H. destruct H as [Hc Hs].
  rewrite (IH Hs), orb_false_r. destruct (Ascii.eqb_spec c sep); [congruence | reflexivity].
Qed.

Lemma split_none sep s : occurs sep s = false -> Text.split sep s = [s].
Proof.
  induction s as [|c s IH]; cbn; [reflexivity|].
  intros H. apply orb_false_iff in H. destruct H as [Hc Hs].
  rewrite Hc, (IH Hs). reflexivity.
Qed.

Lemma split_app sep a b :
  occurs sep a = false ->
  Text.split sep (a ++ String sep b) = a :: Text.split sep b.
Proof.
  induction a as [|c a IH]; cbn [occurs append Text.split].
  - intros _. rewrite Ascii.eqb_refl. reflexivity.
  - intros H. apply orb_false_iff in H. destruct H as [Hc Ha].
    rewrite Hc, (IH Ha). reflexivity.
Qed.

Lemma occurs_app sep a b : occurs sep (a ++ b) = occurs sep a || occurs sep b.
Proof.
  induction a as [|c a IH]; cbn; [reflexivity|]. rewrite IH. apply orb_assoc.
Qed.

Lemma split_not_nil sep s : Text.split sep s <> [].
Proof.
  destruct s as [|c s]; cbn; [discriminate|].
  destruct (Ascii.eqb c sep); [discriminate|].
  destruct (Text.split sep s); discriminate.
Qed.

Lemma join_cons_char sep c h t :
  Text.join sep (String c h :: t) = String c (Text.join sep (h :: t)).
Proof. destruct t; reflexivity. Qed.

Lemma join_cons2 sep x h t :
  Text.join sep (x :: h :: t) = (x ++ sep ++ Text.join sep (h :: t))%string.
Proof. reflexivity. Qed.

Lemma join_split sep s : Text.join (String sep EmptyString) (Text.split sep s) = s.
Proof.
  induction s as [|c s IH]; cbn [Text.split]; [reflexivity|].
  pose proof (split_not_nil sep s) as Hne.
  destruct (Text.split sep s) as [|h t]; [congruence|].
  destruct (Ascii.eqb_spec c sep) as [-> | Hc].
  - rewrite join_cons2, IH. reflexivity.
  - rewrite join_cons_char, IH. reflexivity.
Qed.

Lemma unpack3_join s a b c :
  Text.unpack3 (Text.split Text.hyphen s) = Ret (a, b, c) ->
  (a ++ "-" ++ b ++ "-" ++ c)%string = s.
Proof.
  intros H. pose proof (join_split Text.hyphen s) as J.
  destruct (Text.split Text.hyphen s) as [|x [|y [|z [|w l]]]]; try discriminate H.
  cbn in H. injection H as -> -> ->. exact J.
Qed.

Lemma new_date_ret y m d x :
  new_date y m d = Ret x -> x = mkdate y m d /\ valid_ymd y m d = true.
Proof.
  unfold new_date.
  destruct (fits_c_int y && fits_c_int m && fits_c_int d); cbn [negb]; [|discriminate].
  destruct ((MINYEAR <=? y) && (y <=? MAXYEAR)) eqn:Hy; cbn [negb]; [|discriminate].
  destruct ((1 <=? m) && (m <=? 12)) eqn:Hm; cbn [negb]; [|discriminate].
  destruct ((1 <=? d) && (d <=? days_in_month y m)) eqn:Hd; cbn [negb]; [|discriminate].
  intros H. injection H as <-. split; [reflexivity|].
  apply valid_ymd_iff. unfold MINYEAR, MAXYEAR in Hy. b2p. lia.
Qed.

Lemma days_in_month_le y m : days_in_month y m <= 31.
Proof.
  unfold days_in_month. destruct ((m =? 2) && is_leap y); [lia|].
  unfold DAYS_IN_MONTH. destruct m as [|p|p]; try lia.
  do 4 (try destruct p as [p|p|]; try lia).
Qed.

Lemma new_date_valid y m d :
  valid_ymd y m d = true -> new_date y m d = Ret (mkdate y m d).
Proof.
  intros V. pose proof V as V'. apply valid_ymd_iff in V'. destruct V' as (Hy & Hm & Hd).
  pose proof (days_in_month_le y m).
  unfold new_date, fits_c_int, MINYEAR, MAXYEAR.
  repeat match goal with
  | |- context [?a <=? ?b] =>
      replace (a <=? b) with true by (symmetry; apply Z.leb_le; lia)
  end.
  reflexivity.
Qed.

Lemma new_date_small y m d :
  0 <= y <= 9999 -> 0 <= m <= 99 -> 0 <= d <= 99 ->
  new_date y m d = if valid_ymd y m d then Ret (mkdate y m d) else Raise ValueError.
Proof.
  intros Hy Hm Hd. destruct (valid_ymd y m d) eqn:V.
  - apply new_date_valid, V.
  - unfold new_date, fits_c_int.
    replace ((-2147483648 <=? y) && (y <=? 2147483647)) with true by (symmetry; b2p; lia).
    replace ((-2147483648 <=? m) && (m <=? 2147483647)) with true by (symmetry; b2p; lia).
    replace ((-2147483648 <=? d) && (d <=? 2147483647)) with true by (symmetry; b2p; lia).
    cbn [andb negb]. unfold valid_ymd in V.
    destruct ((MINYEAR <=? y) && (y <=? MAXYEAR)); cbn [negb andb] in *; [|reflexivity].
    destruct (1 <=? m); cbn [negb andb] in *; [|reflexivity].
    destruct (m <=? 12); cbn [negb andb] in *; [|reflexivity].
    rewrite V. reflexivity.
Qed.

Lemma is_ymd_true_inv s :
  is_ymd s = Ret true ->
  exists y m d yi mi di,
    Text.unpack3 (Text.split Text.hyphen s) = Ret (y, m, d) /\
    Text.int_of_str y = Ret yi /\ Text.int_of_str m = Ret mi /\ Text.int_of_str d = Ret di /\
    valid_ymd yi mi di = true.
Proof.
  unfold is_ymd. destruct (Text.match_prefix Text.date_pattern s); cbn [negb]; [|discriminate].
  destruct (Text.unpack3 (Text.split Text.hyphen s)) as [[[y m] d]|e]; cbn [bind]; [|discriminate].
  destruct (Text.int_of_str y) as [yi|[]] eqn:Ey; cbn [bind except_ValueError]; try discriminate.
  destruct (Text.int_of_str m) as [mi|[]] eqn:Em; cbn [bind except_ValueError]; try discriminate.
  destruct (Text.int_of_str d) as [di|[]] eqn:Ed; cbn [bind except_ValueError]; try discriminate.
  destruct (new_date yi mi di) as [x|[]] eqn:Ex; cbn [bind except_ValueError]; try discriminate.
  intros _. exists y, m, d, yi, mi, di. apply new_date_ret in Ex. tauto.
Qed.

Lemma digit_value_bound c : Text.is_digit c = true -> 0 <= Text.digit_value c <= 9.
Proof. unfold Text.is_digit, Text.digit_value. b2p. lia. Qed.

Lemma value_from_bound s : forall acc,
  all_digits s = true -> 0 <= acc ->
  0 <= value_from acc s < (acc + 1) * 10 ^ Z.of_nat (String.length s).
Proof.
  induction s as [|c s IH]; intros acc H Hacc; cbn [value_from String.length].
  - cbn. lia.
  - cbn [all_digits] in H. apply andb_true_iff in H. destruct H as [Hc Hs].
    pose proof (digit_value_bound c Hc).
    specialize (IH (10 * acc + Text.digit_value c) Hs ltac:(lia)).
    rewrite Nat2Z.inj_succ, Z.pow_succ_r by lia.
    assert (0 < 10 ^ Z.of_nat (String.length s)) by (apply Z.pow_pos_nonneg; lia).
    nia.
Qed.

Lemma value_bound s k :
  all_digits s = true -> String.length s = k -> 0 <= value s < 10 ^ Z.of_nat k.
Proof.
  intros H <-. pose proof (value_from_bound s 0 H ltac:(lia)). unfold value. lia.
Qed.

Lemma match_prefix_canonical a b c :
  all_digits a = true -> String.length a = 4%nat ->
  all_digits b = true -> String.length b = 2%nat ->
  all_digits c = true -> String.length c = 2%nat ->
  Text.match_prefix Text.date_pattern (a ++ "-" ++ b ++ "-" ++ c) = true.
Proof.
  intros Ha La Hb Lb Hc Lc.
  do 5 (destruct a as [|? a]; try discriminate La).
  do 3 (destruct b as [|? b]; try discriminate Lb).
  do 3 (destruct c as [|? c]; try discriminate Lc).
  cbn [all_digits] in Ha, Hb, Hc. b2p.
  cbn. unfold Text.is_hyphen, Text.hyphen. cbn.
  destruct Ha as (-> & -> & -> & -> & _), Hb as (-> & -> & _), Hc as (-> & -> & _).
  reflexivity.
Qed.

Lemma split_canonical a b c :
  all_digits a = true -> all_digits b = true -> all_digits c = true ->
  Text.split Text.hyphen (a ++ "-" ++ b ++ "-" ++ c) = [a; b; c].
Proof.
  intros Ha Hb Hc.
  change ("-" ++ b ++ "-" ++ c)%string with (String Text.hyphen (b ++ String Text.hyphen c)).
  rewrite split_app by (apply all_digits_no; [reflexivity | exact Ha]).
  rewrite split_app by (apply all_digits_no; [reflexivity | exact Hb]).
  rewrite split_none by (apply all_digits_no; [reflexivity | exact Hc]).
  reflexivity.
Qed.

Lemma is_ymd_canonical a b c :
  all_digits a = true -> String.length a = 4%nat ->
  all_digits b = true -> String.length b = 2%nat ->
  all_digits c = true -> String.length c = 2%nat ->
  is_ymd (a ++ "-" ++ b ++ "-" ++ c) = Ret (valid_ymd (value a) (value b) (value c)).
Proof.
  intros Ha La Hb Lb Hc Lc. unfold is_ymd.
  rewrite match_prefix_canonical by assumption. cbn [negb].
  rewrite split_canonical by assumption. cbn [Text.unpack3 bind].
  rewrite !int_of_digits;
    try assumption; try (unfold Text.int_max_str_digits; lia);
    try (intros ->; discriminate).
  cbn [bind].
  pose proof (value_bound a 4 Ha La). pose proof (value_bound b 2 Hb Lb).
  pose proof (value_bound c 2 Hc Lc).
  rewrite new_date_small by (cbn in *; lia).
  destruct (valid_ymd _ _ _); reflexivity.
Qed.

(** ** Instances built from dates *)

Lemma check_range_sound f k : forall lo,
  check_range f lo k = true -> forall z, lo <= z < lo + Z.of_nat k -> f z = true.
Proof.
  induction k as [|k IH]; intros lo H z Hz; [lia|].
  cbn [check_range] in H. apply andb_true_iff in H. destruct H as [H0 H1].
  destruct (Z.eq_dec z lo) as [-> | Hne]; [exact H0|].
  apply (IH (lo + 1) H1). lia.
Qed.

Lemma zfmt4_table : check_range (digits_of_width 4) 0 (Z.to_nat 10000) = true.
Proof. vm_compute. reflexivity. Qed.

Lemma zfmt2_table : check_range (digits_of_width 2) 0 (Z.to_nat 100) = true.
Proof. vm_compute. reflexivity. Qed.

Lemma digits_of_width_spec w n :
  digits_of_width w n = true ->
  all_digits (Text.zfmt w n) = true /\ String.length (Text.zfmt w n) = w
  /\ value (Text.zfmt w n) = n.
Proof.
  unfold digits_of_width. rewrite !andb_true_iff, Nat.eqb_eq, Z.eqb_eq. tauto.
Qed.

Lemma zfmt4_ok y : 0 <= y <= 9999 ->
  all_digits (Text.zfmt 4 y) = true /\ String.length (Text.zfmt 4 y) = 4%nat
  /\ value (Text.zfmt 4 y) = y.
Proof.
  intros H. apply digits_of_width_spec.
  apply (check_range_sound _ _ _ zfmt4_table). rewrite Z2Nat.id; lia.
Qed.

Lemma zfmt2_ok m : 0 <= m <= 99 ->
  all_digits (Text.zfmt 2 m) = true /\ String.length (Text.zfmt 2 m) = 2%nat
  /\ value (Text.zfmt 2 m) = m.
Proof.
  intros H. apply digits_of_width_spec.
  apply (check_range_sound _ _ _ zfmt2_table). rewrite Z2Nat.id; lia.
Qed.

Lemma valid_date_small x : valid_date x = true ->
  0 <= year x <= 9999 /\ 0 <= month x <= 99 /\ 0 <= day x <= 99.
Proof.
  unfold valid_date. intros V. apply valid_ymd_iff in V.
  pose proof (days_in_month_le (year x) (month x)). lia.
Qed.

Lemma is_ymd_str_date x : valid_date x = true -> is_ymd (str_date x) = Ret true.
Proof.
  intros V. destruct (valid_date_small x V) as (Hy & Hm & Hd).
  destruct (zfmt4_ok _ Hy) as (Y1 & Y2 & Y3).
  destruct (zfmt2_ok _ Hm) as (M1 & M2 & M3).
  destruct (zfmt2_ok _ Hd) as (D1 & D2 & D3).
  unfold str_date. rewrite is_ymd_canonical by assumption.
  rewrite Y3, M3, D3. unfold valid_date in V. rewrite V. reflexivity.
Qed.

Lemma ymd_from_date x : valid_date x = true ->
  _ymd_from_date x = Ret (Text.zfmt 4 (year x), Text.zfmt 2 (month x), Text.zfmt 2 (day x)).
Proof.
  intros V. destruct (valid_date_small x V) as (Hy & Hm & Hd).
  destruct (zfmt4_ok _ Hy) as (Y1 & _). destruct (zfmt2_ok _ Hm) as (M1 & _).
  destruct (zfmt2_ok _ Hd) as (D1 & _).
  unfold _ymd_from_date, _ymd_from_string, str_date.
  rewrite split_canonical by assumption. reflexivity.
Qed.

Lemma init_date x : valid_date x = true -> __init__ (PDate x) = Ret (ymd_of_date x).
Proof.
  intros V. unfold __init__, is_ymd_date. rewrite is_ymd_str_date by exact V.
  cbn [bind]. rewrite ymd_from_date by exact V. reflexivity.
Qed.

Lemma str_date_no_space x : valid_date x = true -> occurs Text.space (str_date x) = false.
Proof.
  intros V. destruct (valid_date_small x V) as (Hy & Hm & Hd).
  destruct (zfmt4_ok _ Hy) as (Y1 & _). destruct (zfmt2_ok _ Hm) as (M1 & _).
  destruct (zfmt2_ok _ Hd) as (D1 & _).
  unfold str_date. rewrite !occurs_app.
  rewrite (all_digits_no Text.space _ eq_refl Y1), (all_digits_no Text.space _ eq_refl M1),
    (all_digits_no Text.space _ eq_refl D1). reflexivity.
Qed.

Lemma before_space_str_datetime t : valid_date (dt_date t) = true ->
  before_space (str_datetime t) = str_date (dt_date t).
Proof.
  intros V. unfold before_space, str_datetime.
  match goal with |- context [(str_date ?x ++ " " ++ ?rest)%string] =>
    change (str_date x ++ " " ++ rest)%string with (str_date x ++ String Text.space rest)%string
  end.
  rewrite split_app by (apply str_date_no_space, V). reflexivity.
Qed.

Lemma init_datetime t : valid_date (dt_date t) = true ->
  __init__ (PDatetime t) = Ret (ymd_of_date (dt_date t)).
Proof.
  intros V. unfold __init__, is_ymd_datetime, _ymd_from_datetime.
  rewrite before_space_str_datetime by exact V.
  rewrite is_ymd_str_date by exact V. cbn [bind].
  fold (_ymd_from_date (dt_date t)). rewrite ymd_from_date by exact V. reflexivity.
Qed.

Lemma to_date_canonical x : valid_date x = true -> to_date (ymd_of_date x) = Ret x.
Proof.
  intros V. destruct (valid_date_small x V) as (Hy & Hm & Hd).
  destruct (zfmt4_ok _ Hy) as (Y1 & Y2 & Y3).
  destruct (zfmt2_ok _ Hm) as (M1 & M2 & M3).
  destruct (zfmt2_ok _ Hd) as (D1 & D2 & D3).
  unfold to_date, ymd_of_date. cbn [_year _month _day].
  rewrite !int_of_digits; try assumption;
    try (unfold Text.int_max_str_digits; lia);
    try (intros E; rewrite E in *; discriminate).
  cbn [bind]. rewrite Y3, M3, D3. rewrite new_date_valid by exact V.
  destruct x; reflexivity.
Qed.

Lemma to_datetime_of_to_date a x :
  to_date a = Ret x -> to_datetime a = Ret (mkdatetime x 0 0 0 0).
Proof.
  unfold to_date, to_datetime, new_datetime.
  destruct (Text.int_of_str (_year a)); cbn [bind]; [|discriminate].
  destruct (Text.int_of_str (_month a)); cbn [bind]; [|discriminate].
  destruct (Text.int_of_str (_day a)); cbn [bind]; [|discriminate].
  intros ->. reflexivity.
Qed.

Lemma to_date_valid a x : to_date a = Ret x -> valid_date x = true.
Proof.
  unfold to_date.
  destruct (Text.int_of_str (_year a)); cbn [bind]; [|discriminate].
  destruct (Text.int_of_str (_month a)); cbn [bind]; [|discriminate].
  destruct (Text.int_of_str (_day a)); cbn [bind]; [|discriminate].
  intros H. apply new_date_ret in H. destruct H as [-> V]. exact V.
Qed.

(** ** Day arithmetic on instances *)

Lemma toordinal_range x : valid_date x = true -> 1 <= toordinal x <= MAXORDINAL.
Proof. apply ymd2ord_range. Qed.

Lemma fromordinal_valid n : 1 <= n <= MAXORDINAL ->
  valid_date (fromordinal n) = true /\ toordinal (fromordinal n) = n.
Proof.
  intros H. pose proof (ord2ymd_sound n H) as S.
  unfold fromordinal, valid_date, toordinal.
  destruct (ord2ymd n) as [[y m] d]. exact S.
Qed.

Lemma fromordinal_toordinal x : valid_date x = true -> fromordinal (toordinal x) = x.
Proof.
  intros V. unfold fromordinal, toordinal. rewrite ord2ymd_ymd2ord by exact V.
  destruct x; reflexivity.
Qed.

Lemma day_at_to_date x i :
  1 <= toordinal x + i <= MAXORDINAL ->
  to_date (day_at x i) = Ret (fromordinal (toordinal x + i)).
Proof.
  intros H. apply to_date_canonical, fromordinal_valid, H.
Qed.

Lemma day_at_zero x : valid_date x = true -> day_at x 0 = ymd_of_date x.
Proof.
  intros V. unfold day_at. rewrite Z.add_0_r, fromordinal_toordinal by exact V. reflexivity.
Qed.

Lemma in_range_b n : 1 <= n <= MAXORDINAL -> (0 <? n) && (n <=? MAXORDINAL) = true.
Proof. intros H. b2p. lia. Qed.

Lemma out_of_range_b n : ~ (1 <= n <= MAXORDINAL) -> (0 <? n) && (n <=? MAXORDINAL) = false.
Proof. intros H. b2p. lia. Qed.

(** Moving an instance that denotes [x] by [delta] days and building
    the instance of the result. *)
Lemma add_then_init x delta :
  valid_date x = true -> 1 <= toordinal x + delta <= MAXORDINAL ->
  (r <- datetime_add (mkdatetime x 0 0 0 0) delta ;; __init__ (PDatetime r))
  = Ret (day_at x delta).
Proof.
  intros V H. unfold datetime_add. cbn [dt_date hour minute second microsecond].
  rewrite in_range_b by exact H. cbn [bind].
  rewrite init_datetime by (apply fromordinal_valid, H). reflexivity.
Qed.

Lemma add_overflow x delta :
  ~ (1 <= toordinal x + delta <= MAXORDINAL) ->
  datetime_add (mkdatetime x 0 0 0 0) delta = Raise OverflowError.
Proof.
  intros H. unfold datetime_add. cbn [dt_date]. rewrite out_of_range_b by exact H. reflexivity.
Qed.

Lemma timedelta_days_small n : - 999999999 <= n <= 999999999 -> timedelta_days n = Ret n.
Proof.
  intros H. unfold timedelta_days.
  replace ((-999999999 <=? n) && (n <=? 999999999)) with true by (symmetry; b2p; lia).
  reflexivity.
Qed.

Lemma n_days_spec a x d :
  to_date a = Ret x -> 1 <= toordinal x + d <= MAXORDINAL ->
  n_days a (Some d) = Ret (day_at x d).
Proof.
  intros Ha H. pose proof (to_date_valid a x Ha) as V.
  pose proof (toordinal_range x V) as R. unfold MAXORDINAL in *.
  unfold n_days. rewrite (to_datetime_of_to_date a x Ha). cbn [bind].
  destruct (Z.gtb_spec d 0) as [Hpos | Hnpos].
  - rewrite timedelta_days_small by lia. cbn [bind]. apply add_then_init; assumption.
  - destruct (Z.ltb_spec d 0) as [Hneg | Hzero].
    + rewrite timedelta_days_small by lia. cbn [bind]. unfold datetime_sub.
      replace (- Z.abs d) with d by lia. apply add_then_init; assumption.
    + assert (d = 0) by lia. subst d.
      rewrite init_datetime by exact V. cbn [dt_date]. rewrite day_at_zero by exact V. reflexivity.
Qed.

Lemma n_days_out_of_range a x d :
  to_date a = Ret x -> ~ (1 <= toordinal x + d <= MAXORDINAL) ->
  n_days a (Some d) = Raise OverflowError.
Proof.
  intros Ha H. pose proof (to_date_valid a x Ha) as V.
  pose proof (toordinal_range x V) as R.
  unfold n_days. rewrite (to_datetime_of_to_date a x Ha). cbn [bind].
  destruct (Z.gtb_spec d 0) as [Hpos | Hnpos].
  - unfold timedelta_days. destruct ((-999999999 <=? d) && (d <=? 999999999)); [|reflexivity].
    cbn [bind]. rewrite add_overflow by exact H. reflexivity.
  - destruct (Z.ltb_spec d 0) as [Hneg | Hzero]; [|lia].
    unfold timedelta_days.
    destruct ((-999999999 <=? Z.abs d) && (Z.abs d <=? 999999999)); [|reflexivity].
    cbn [bind]. unfold datetime_sub. replace (- Z.abs d) with d by lia.
    rewrite add_overflow by exact H. reflexivity.
Qed.

Lemma tomorrow_spec a x :
  to_date a = Ret x ->
  tomorrow a = if toordinal x + 1 <=? MAXORDINAL then Ret (day_at x 1) else Raise OverflowError.
Proof.
  intros Ha. pose proof (to_date_valid a x Ha) as V.
  pose proof (toordinal_range x V) as R.
  unfold tomorrow. rewrite (to_datetime_of_to_date a x Ha). cbn [bind].
  rewrite timedelta_days_small by lia. cbn [bind].
  destruct (Z.leb_spec (toordinal x + 1) MAXORDINAL) as [L | G].
  - apply add_then_init; [exact V | lia].
  - rewrite add_overflow by lia. reflexivity.
Qed.

Lemma day_at_shift x i k :
  1 <= toordinal x + i <= MAXORDINAL ->
  day_at (fromordinal (toordinal x + i)) k = day_at x (i + k).
Proof.
  intros H. unfold day_at. destruct (fromordinal_valid _ H) as [_ ->].
  rewrite Z.add_assoc. reflexivity.
Qed.

Lemma constructible_to_date a : constructible a <-> exists x, to_date a = Ret x.
Proof.
  unfold constructible, to_date. split.
  - intros (yi & mi & di & -> & -> & -> & V). cbn [bind].
    rewrite new_date_valid by exact V. eauto.
  - intros (x & H).
    destruct (Text.int_of_str (_year a)) as [yi|]; cbn [bind] in H; [|discriminate].
    destruct (Text.int_of_str (_month a)) as [mi|]; cbn [bind] in H; [|discriminate].
    destruct (Text.int_of_str (_day a)) as [di|]; cbn [bind] in H; [|discriminate].
    apply new_date_ret in H. exists yi, mi, di. tauto.
Qed.

Lemma init_constructible v a : __init__ v = Ret a -> constructible a.
Proof.
  assert (Hs : forall s y m d, is_ymd s = Ret true -> _ymd_from_string s = Ret (y, m, d) ->
                               constructible (mkYMDDate y m d)).
  { intros s y m d Hok Hparts. apply is_ymd_true_inv in Hok.
    destruct Hok as (y' & m' & d' & yi & mi & di & Hu & Hy & Hm & Hd & V).
    unfold _ymd_from_string in Hparts. rewrite Hu in Hparts. cbn [bind] in Hparts.
    injection Hparts as <- <- <-. exists yi, mi, di. cbn [_year _month _day]. tauto. }
  destruct v as [s | x | t | o | | z]; cbn [__init__]; try discriminate.
  - destruct (is_ymd s) as [[|]|] eqn:Hok; cbn [bind]; try discriminate.
    destruct (_ymd_from_string s) as [[[y m] d]|] eqn:Hp; cbn [bind]; try discriminate.
    intros H. injection H as <-. eapply Hs; eassumption.
  - unfold is_ymd_date, _ymd_from_date.
    destruct (is_ymd (str_date x)) as [[|]|] eqn:Hok; cbn [bind]; try discriminate.
    destruct (_ymd_from_string (str_date x)) as [[[y m] d]|] eqn:Hp; cbn [bind]; try discriminate.
    intros H. injection H as <-. eapply Hs; eassumption.
  - unfold is_ymd_datetime, _ymd_from_datetime.
    destruct (is_ymd (before_space (str_datetime t))) as [[|]|] eqn:Hok; cbn [bind]; try discriminate.
    destruct (_ymd_from_string (before_space (str_datetime t))) as [[[y m] d]|] eqn:Hp;
      cbn [bind]; try discriminate.
    intros H. injection H as <-. eapply Hs; eassumption.
Qed.

Lemma init_fails_or_valid v : fails_or_valid (__init__ v).
Proof.
  unfold fails_or_valid. destruct (__init__ v) as [a|e] eqn:E.
  - right. exists a. split; [reflexivity|]. eapply init_constructible, E.
  - left. eauto.
Qed.

Lemma bind_fails_or_valid {A} (r : result A) (k : A -> result YMDDate) :
  (forall x, fails_or_valid (k x)) -> fails_or_valid (bind r k).
Proof.
  intros H. destruct r as [x|e]; cbn [bind]; [apply H|]. left. eauto.
Qed.

Lemma bind_fails_or_valid_opt {A} (r : result A) (k : A -> result (option YMDDate)) :
  (forall x, fails_or_valid_opt (k x)) -> fails_or_valid_opt (bind r k).
Proof.
  intros H. destruct r as [x|e]; cbn [bind]; [apply H|]. left. eauto.
Qed.

Lemma some_fails_or_valid (r : result YMDDate) :
  fails_or_valid r -> fails_or_valid_opt (x <- r ;; Ret (Some x)).
Proof.
  intros [(e & ->) | (a & -> & C)]; cbn [bind].
  - left. eauto.
  - right. right. eauto.
Qed.

(** ** Digit text is determined by its length and value *)

Lemma value_from_acc s : forall acc,
  value_from acc s = acc * 10 ^ Z.of_nat (String.length s) + value_from 0 s.
Proof.
  induction s as [|c s IH]; intros acc; cbn [value_from String.length].
  - cbn. lia.
  - rewrite IH. rewrite (IH (10 * 0 + Text.digit_value c)).
    rewrite Nat2Z.inj_succ, Z.pow_succ_r by lia. ring.
Qed.

Lemma digit_value_inj c c' : Text.digit_value c = Text.digit_value c' -> c = c'.
Proof.
  unfold Text.digit_value, Text.code. intros H.
  assert (E : N_of_ascii c = N_of_ascii c') by lia.
  rewrite <- (ascii_N_embedding c), <- (ascii_N_embedding c'), E. reflexivity.
Qed.

Lemma digits_inj s : forall t,
  all_digits s = true -> all_digits t = true ->
  String.length s = String.length t -> value s = value t -> s = t.
Proof.
  unfold value. induction s as [|c s IH]; intros [|c' t] Hs Ht Hl Hv; try discriminate Hl.
  - reflexivity.
  - cbn [all_digits] in Hs, Ht. apply andb_true_iff in Hs, Ht.
    destruct Hs as [Hc Hs], Ht as [Hc' Ht].
    cbn [String.length] in Hl. injection Hl as Hl.
    cbn [value_from] in Hv. rewrite (value_from_acc s), (value_from_acc t) in Hv.
    rewrite <- Hl in Hv.
    pose proof (value_bound s _ Hs eq_refl) as Bs.
    pose proof (value_bound t _ Ht (eq_sym Hl)) as Bt.
    unfold value in Bs, Bt.
    pose proof (digit_value_bound c Hc). pose proof (digit_value_bound c' Hc').
    set (p := 10 ^ Z.of_nat (String.length s)) in *.
    assert (Hd : Text.digit_value c = Text.digit_value c') by nia.
    f_equal.
    + apply digit_value_inj, Hd.
    + apply IH; try assumption. nia.
Qed.

Lemma zero_padded_canonical a x :
  zero_padded a = true -> to_date a = Ret x -> a = ymd_of_date x.
Proof.
  unfold zero_padded. rewrite !andb_true_iff, !Nat.eqb_eq.
  intros (((((Y1 & Y2) & M1) & M2) & D1) & D2) H.
  unfold to_date in H.
  rewrite !int_of_digits in H; try assumption;
    try (unfold Text.int_max_str_digits; lia);
    try (intros E; rewrite E in *; discriminate).
  cbn [bind] in H. apply new_date_ret in H. destruct H as [-> V].
  pose proof (valid_date_small (mkdate _ _ _) V) as (By & Bm & Bd). cbn [year month day] in *.
  destruct (zfmt4_ok _ By) as (Y1' & Y2' & Y3').
  destruct (zfmt2_ok _ Bm) as (M1' & M2' & M3').
  destruct (zfmt2_ok _ Bd) as (D1' & D2' & D3').
  destruct a as [ys ms ds]. unfold ymd_of_date. cbn [_year _month _day year month day] in *.
  f_equal; apply digits_inj; congruence.
Qed.

Lemma ymd_of_date_zero_padded x : valid_date x = true -> zero_padded (ymd_of_date x) = true.
Proof.
  intros V. destruct (valid_date_small x V) as (Hy & Hm & Hd).
  destruct (zfmt4_ok _ Hy) as (Y1 & Y2 & _).
  destruct (zfmt2_ok _ Hm) as (M1 & M2 & _).
  destruct (zfmt2_ok _ Hd) as (D1 & D2 & _).
  unfold zero_padded, ymd_of_date. cbn [_year _month _day].
  rewrite Y1, Y2, M1, M2, D1, D2. reflexivity.
Qed.

(** ** Equality and ordering of instances *)

Lemma eq_refl_instance a : __eq__ a (PYMD a) = Ret true.
Proof. cbn. unfold same_text. rewrite !String.eqb_refl. reflexivity. Qed.

Lemma eq_instances_iff a b : __eq__ a (PYMD b) = Ret true <-> a = b.
Proof.
  cbn. unfold same_text. split.
  - intros H. injection H as H. rewrite !andb_true_iff, !String.eqb_eq in H.
    destruct a, b. cbn in *. destruct H as ((-> & ->) & ->). reflexivity.
  - intros ->. rewrite !String.eqb_refl. reflexivity.
Qed.

Lemma date_compare_eq x y : date_compare x y = Eq <-> x = y.
Proof.
  unfold date_compare. destruct x as [y1 m1 d1], y as [y2 m2 d2]. cbn [year month day].
  destruct (Z.compare_spec y1 y2); [subst|split; [discriminate|intros [=]; lia]..].
  destruct (Z.compare_spec m1 m2); [subst|split; [discriminate|intros [=]; lia]..].
  destruct (Z.compare_spec d1 d2); [subst|split; [discriminate|intros [=]; lia]..].
  tauto.
Qed.

Lemma ordering_instances rel a b x y :
  to_date a = Ret x -> to_date b = Ret y ->
  ordering rel a (PYMD b) = Ret (rel x y).
Proof.
  unfold ordering, date_of_text, to_date. intros -> ->. reflexivity.
Qed.

(** On zero-padded instances the three comparisons agree with the
    dates: equality is equality of the numbers and exactly one of
    greater-than, less-than, equal holds. *)
Lemma zero_padded_comparisons a b x y :
  zero_padded a = true -> zero_padded b = true ->
  to_date a = Ret x -> to_date b = Ret y ->
  (__eq__ a (PYMD b) = Ret true <-> x = y) /\
  exists g l e,
    __gt__ a (PYMD b) = Ret g /\ less_than a (PYMD b) = Ret l /\
    __eq__ a (PYMD b) = Ret e /\ exactly_one g l e = true.
Proof.
  intros Za Zb Ha Hb.
  pose proof (zero_padded_canonical a x Za Ha) as Ea.
  pose proof (zero_padded_canonical b y Zb Hb) as Eb.
  assert (Heq : __eq__ a (PYMD b) = Ret true <-> x = y).
  { rewrite eq_instances_iff. split.
    - intros E. rewrite E in Ha. rewrite Ha in Hb. injection Hb as ->. reflexivity.
    - intros ->. congruence. }
  split; [exact Heq|].
  exists (date_gtb x y), (negb (date_geb x y)), (same_text a (_year b) (_month b) (_day b)).
  unfold less_than, __gt__, __ge__.
  rewrite !(ordering_instances _ a b x y Ha Hb). cbn [bind].
  split; [reflexivity|]. split; [reflexivity|]. split; [reflexivity|].
  pose proof (date_compare_eq x y) as Hc.
  change (__eq__ a (PYMD b)) with (Ret (same_text a (_year b) (_month b) (_day b))) in Heq.
  unfold date_gtb, date_geb.
  destruct (same_text a (_year b) (_month b) (_day b)).
  - destruct Heq as [Heq _]. specialize (Heq eq_refl). apply Hc in Heq. rewrite Heq. reflexivity.
  - destruct (date_compare x y); try reflexivity.
    destruct Hc as [Hc _]. specialize (Hc eq_refl).
    destruct Heq as [_ Heq]. specialize (Heq Hc). discriminate Heq.
Qed.

(** ** The validator on text of the exact shape *)

Lemma ymd_fields_parts s y m d :
  ymd_fields s = Some (y, m, d) ->
  exists a b c,
    s = (a ++ "-" ++ b ++ "-" ++ c)%string /\
    all_digits a = true /\ String.length a = 4%nat /\
    all_digits b = true /\ String.length b = 2%nat /\
    all_digits c = true /\ String.length c = 2%nat /\
    value a = y /\ value b = m /\ value c = d.
Proof.
  intros H.
  do 10 (destruct s as [|? s]; [discriminate H|]).
  destruct s; [|discriminate H].
  unfold ymd_fields in H.
  match type of H with (if ?c then _ else _) = _ => destruct c eqn:E; [|discriminate H] end.
  match type of H with Some (?u, ?v, ?w) = _ =>
    assert (Hy : u = y) by congruence;
    assert (Hm : v = m) by congruence;
    assert (Hd : w = d) by congruence
  end. clear H.
  cbn [forallb] in E. unfold Text.is_hyphen in E.
  rewrite !andb_true_iff in E.
  destruct E as (((D1 & D2 & D3 & D4 & D5 & D6 & D7 & D8 & _) & H1) & H2).
  apply Ascii.eqb_eq in H1, H2. subst.
  exists (String a (String a0 (String a1 (String a2 EmptyString)))),
         (String a4 (String a5 EmptyString)), (String a7 (String a8 EmptyString)).
  cbn [all_digits String.length]. rewrite D1, D2, D3, D4, D5, D6, D7, D8.
  unfold value. cbn [value_from].
  repeat split; try reflexivity; lia.
Qed.

Lemma is_ymd_exact_shape s y m d :
  ymd_fields s = Some (y, m, d) -> is_ymd s = Ret (valid_ymd y m d).
Proof.
  intros H. destruct (ymd_fields_parts s y m d H)
    as (a & b & c & -> & A1 & A2 & B1 & B2 & C1 & C2 & <- & <- & <-).
  apply is_ymd_canonical; assumption.
Qed.

Lemma str_of_init s a : __init__ (PStr s) = Ret a -> __str__ a = s.
Proof.
  cbn [__init__]. destruct (is_ymd s) as [[|]|]; cbn [bind]; try discriminate.
  unfold _ymd_from_string.
  destruct (Text.unpack3 (Text.split Text.hyphen s)) as [[[y m] d]|] eqn:E; cbn [bind]; try discriminate.
  intros H. injection H as <-. unfold __str__. cbn [_year _month _day].
  apply unpack3_join, E.
Qed.

Lemma init_exact_shape s y m d :
  ymd_fields s = Some (y, m, d) -> valid_ymd y m d = true ->
  __init__ (PStr s) = Ret (ymd_of_date (mkdate y m d)).
Proof.
  intros H V. pose proof (is_ymd_exact_shape s y m d H) as Hok. rewrite V in Hok.
  destruct (ymd_fields_parts s y m d H)
    as (a & b & c & -> & A1 & A2 & B1 & B2 & C1 & C2 & Ea & Eb & Ec).
  cbn [__init__]. rewrite Hok. cbn [bind]. unfold _ymd_from_string.
  rewrite split_canonical by assumption. cbn [Text.unpack3 bind].
  pose proof (valid_date_small (mkdate y m d) V) as (By & Bm & Bd). cbn [year month day] in *.
  destruct (zfmt4_ok _ By) as (Y1' & Y2' & Y3').
  destruct (zfmt2_ok _ Bm) as (M1' & M2' & M3').
  destruct (zfmt2_ok _ Bd) as (D1' & D2' & D3').
  unfold ymd_of_date. cbn [year month day].
  f_equal. f_equal; apply digits_inj; congruence.
Qed.

(** C1.  Two constructed instances whose year, month and day agree as
    integers (2024, 1, 11), and which the equality predicate tells
    apart: [__eq__] compares the stored text, and [is_ymd] lets text
    through whose day has more than two digits. *)
Theorem eq_compares_text :
  __init__ (PStr "2024-01-011") = Ret jan11_long /\
  __init__ (PStr "2024-01-11") = Ret jan11 /\
  map Text.int_of_str [_year jan11_long; _month jan11_long; _day jan11_long]
    = [Ret 2024; Ret 1; Ret 11] /\
  map Text.int_of_str [_year jan11; _month jan11; _day jan11]
    = [Ret 2024; Ret 1; Ret 11] /\
  __eq__ jan11_long (PYMD jan11) = Ret false.
Proof. repeat split. Qed.

(** C2.  [is_ymd] answers true on text that is longer than the shape
    YYYY-MM-DD, and raises on two kinds of text instead of answering
    false: a third hyphen makes the unpacking of the split fail before
    the [try] is entered, and a day beyond the C integers makes the date
    constructor raise [OverflowError], which the handler does not
    catch. *)
Theorem is_ymd_beyond_the_shape :
  ymd_fields "2024-01-011" = None /\
  is_ymd "2024-01-011" = Ret true /\
  is_ymd "2024-01-01-05" = Raise ValueError /\
  is_ymd "2024-01-0199999999999" = Raise OverflowError.
Proof. repeat split. Qed.

(** C3.  For text of the exact shape YYYY-MM-DD that names a valid
    date, construction succeeds and the string conversion of the
    instance gives the text back, zero padding included. *)
Theorem str_round_trip (S : string) (y m d : Z) :
  ymd_fields S = Some (y, m, d) ->
  valid_ymd y m d = true ->
  exists a, __init__ (PStr S) = Ret a /\ __str__ a = S.
Proof.
  intros H V. exists (ymd_of_date (mkdate y m d)).
  pose proof (init_exact_shape S y m d H V) as E. split; [exact E|].
  apply str_of_init, E.
Qed.

Lemma str_round_trip_witness :
  exists a, __init__ (PStr "0099-01-05") = Ret a /\ __str__ a = "0099-01-05"%string.
Proof. apply (str_round_trip "0099-01-05" 99 1 5); reflexivity. Defined.

(** C4.  For the same two constructed instances, which denote the same
    date, none of the three cases holds: not greater, not less (the
    negation of greater-or-equal), not equal. *)
Theorem no_comparison_holds :
  __init__ (PStr "2024-01-011") = Ret jan11_long /\
  __init__ (PStr "2024-01-11") = Ret jan11 /\
  __gt__ jan11_long (PYMD jan11) = Ret false /\
  __ge__ jan11_long (PYMD jan11) = Ret true /\
  less_than jan11_long (PYMD jan11) = Ret false /\
  __eq__ jan11_long (PYMD jan11) = Ret false.
Proof. repeat split. Qed.

Ltac through_binds :=
  first [ apply init_fails_or_valid
        | apply some_fails_or_valid
        | apply bind_fails_or_valid; intros ?
        | apply bind_fails_or_valid_opt; intros ? ].

Section Invariant.

Variable federal_holidays : provider.

Lemma jump_fails_or_valid self n mk amount :
  fails_or_valid_opt (jump self n mk amount).
Proof.
  unfold jump. destruct (n >? 0); [|destruct (n <? 0)].
  - apply bind_fails_or_valid_opt; intros t. apply bind_fails_or_valid_opt; intros delta.
    apply bind_fails_or_valid_opt; intros r. apply some_fails_or_valid, init_fails_or_valid.
  - apply bind_fails_or_valid_opt; intros t. apply bind_fails_or_valid_opt; intros delta.
    apply bind_fails_or_valid_opt; intros r. apply some_fails_or_valid, init_fails_or_valid.
  - right. left. reflexivity.
Qed.

Lemma n_days_fails_or_valid self days : fails_or_valid (n_days self days).
Proof.
  unfold n_days. destruct days as [days|]; [|left; eauto].
  destruct (days >? 0); [|destruct (days <? 0)];
    repeat through_binds.
Qed.

Lemma n_weeks_fails_or_valid self weeks : fails_or_valid (n_weeks self weeks).
Proof.
  unfold n_weeks. destruct weeks as [weeks|]; [|left; eauto].
  destruct (weeks >? 0); [|destruct (weeks <? 0)];
    repeat through_binds.
Qed.

Lemma n_months_fails_or_valid self months units wpm dpm :
  fails_or_valid_opt (n_months self months units wpm dpm).
Proof.
  unfold n_months. destruct months as [months|]; [|left; eauto].
  destruct (months =? 0).
  - apply bind_fails_or_valid_opt; intros t. apply some_fails_or_valid, init_fails_or_valid.
  - destruct (upper_is units "W"); [apply jump_fails_or_valid|].
    destruct (upper_is units "D"); [apply jump_fails_or_valid|]. left. eauto.
Qed.

Lemma n_years_fails_or_valid self years units dpy wpy :
  fails_or_valid_opt (n_years self years units dpy wpy).
Proof.
  unfold n_years. destruct years as [years|]; [|left; eauto].
  destruct (years =? 0).
  - apply bind_fails_or_valid_opt; intros t. apply some_fails_or_valid, init_fails_or_valid.
  - destruct (String.eqb units "D"); [apply jump_fails_or_valid|].
    destruct (String.eqb units "W"); [apply jump_fails_or_valid|]. left. eauto.
Qed.

Lemma tomorrow_fails_or_valid self : fails_or_valid (tomorrow self).
Proof.
  unfold tomorrow. repeat through_binds.
Qed.

Lemma business_loop_fails_or_valid fuel : forall next_day r,
  constructible next_day ->
  business_loop federal_holidays fuel next_day = Some r -> fails_or_valid r.
Proof.
  induction fuel as [|fuel IH]; intros next_day r C; cbn [business_loop]; [discriminate|].
  destruct (skipped federal_holidays next_day) as [[|]|e].
  - pose proof (tomorrow_fails_or_valid next_day) as T.
    destruct (tomorrow next_day) as [next_day'|e] eqn:E.
    + apply IH. destruct T as [(e & T) | (a & T & Ca)]; [discriminate|].
      injection T as ->. exact Ca.
    + intros H. injection H as <-. left. eauto.
  - intros H. injection H as <-. right. eauto.
  - intros H. injection H as <-. left. eauto.
Qed.

(** C5.  Construction either raises (no instance exists then) or
    returns an instance whose year, month and day, read as integers,
    form a date accepted by [datetime.date]; every method that
    returns an instance goes through the constructor and so has the
    same property. *)
Theorem valid_date_invariant :
  (forall v, fails_or_valid (__init__ v)) /\
  (forall self days, fails_or_valid (n_days self days)) /\
  (forall self weeks, fails_or_valid (n_weeks self weeks)) /\
  (forall self months units wpm dpm, fails_or_valid_opt (n_months self months units wpm dpm)) /\
  (forall self years units dpy wpy, fails_or_valid_opt (n_years self years units dpy wpy)) /\
  (forall self, fails_or_valid (tomorrow self)) /\
  (forall self, fails_or_valid (next_week self)) /\
  (forall self, fails_or_valid_opt (next_month self)) /\
  (forall self, fails_or_valid_opt (next_year self)) /\
  (forall fuel self,
      match next_business_day federal_holidays fuel self with
      | Some r => fails_or_valid r
      | None => True
      end).
Proof.
  split; [exact init_fails_or_valid|].
  split; [exact n_days_fails_or_valid|].
  split; [exact n_weeks_fails_or_valid|].
  split; [exact n_months_fails_or_valid|].
  split; [exact n_years_fails_or_valid|].
  split; [exact tomorrow_fails_or_valid|].
  split.
  { intros self. unfold next_week. repeat through_binds. }
  split; [intros self; apply n_months_fails_or_valid|].
  split; [intros self; apply n_years_fails_or_valid|].
  intros fuel self. unfold next_business_day.
  pose proof (tomorrow_fails_or_valid self) as T.
  destruct (tomorrow self) as [next_day|e] eqn:E.
  - destruct (business_loop federal_holidays fuel next_day) as [r|] eqn:L; [|exact I].
    apply (business_loop_fails_or_valid fuel next_day); [|exact L].
    destruct T as [(e & T) | (a & T & Ca)]; [discriminate|]. injection T as ->. exact Ca.
  - left. eauto.
Qed.

End Invariant.

(** C6, as the claim states it, fails at the last day of the calendar:
    one day later is out of the range of [datetime]. *)
Lemma n_days_overflows_at_the_end :
  __init__ (PStr "9999-12-31") = Ret (mkYMDDate "9999" "12" "31") /\
  n_days (mkYMDDate "9999" "12" "31") (Some 1) = Raise OverflowError.
Proof. split; reflexivity. Qed.

(** C6, amended.  A constructed instance denotes a date [x]; [n_days 0]
    returns an instance that denotes [x], and for every offset [d] that
    stays within the calendar, [n_days d] followed by [n_days (- d)]
    returns an instance that denotes [x] again.  When the original is
    zero padded, [__eq__] accepts these instances as equal to it. *)
Theorem n_days_round_trip (v : pyval) (a : YMDDate) :
  __init__ v = Ret a ->
  exists x,
    to_date a = Ret x /\
    (exists c0,
        n_days a (Some 0) = Ret c0 /\ to_date c0 = Ret x /\
        (zero_padded a = true -> __eq__ c0 (PYMD a) = Ret true)) /\
    (forall d,
        1 <= toordinal x + d <= MAXORDINAL ->
        exists b c,
          n_days a (Some d) = Ret b /\ n_days b (Some (- d)) = Ret c /\
          to_date c = Ret x /\
          (zero_padded a = true -> __eq__ c (PYMD a) = Ret true)).
Proof.
  intros Hc. apply init_constructible, constructible_to_date in Hc. destruct Hc as (x & Ha).
  pose proof (to_date_valid a x Ha) as V.
  pose proof (toordinal_range x V) as R.
  assert (Hsame : zero_padded a = true -> __eq__ (ymd_of_date x) (PYMD a) = Ret true).
  { intros Z. rewrite <- (zero_padded_canonical a x Z Ha). apply eq_refl_instance. }
  exists x. split; [exact Ha|]. split.
  - exists (ymd_of_date x). split; [|split; [apply to_date_canonical, V | exact Hsame]].
    rewrite (n_days_spec a x 0 Ha) by lia. rewrite day_at_zero by exact V. reflexivity.
  - intros d H. destruct (fromordinal_valid _ H) as [Vb Ob].
    exists (day_at x d), (ymd_of_date x).
    split; [apply n_days_spec; assumption|].
    split; [|split; [apply to_date_canonical, V | exact Hsame]].
    rewrite (n_days_spec (day_at x d) (fromordinal (toordinal x + d)) (- d)).
    + rewrite day_at_shift by exact H. rewrite Z.add_opp_diag_r.
      rewrite day_at_zero by exact V. reflexivity.
    + apply day_at_to_date, H.
    + rewrite Ob. lia.
Qed.

Lemma n_days_round_trip_witness :
  exists x,
    to_date (mkYMDDate "2024" "02" "28") = Ret x /\
    (exists c0,
        n_days (mkYMDDate "2024" "02" "28") (Some 0) = Ret c0 /\ to_date c0 = Ret x /\
        (zero_padded (mkYMDDate "2024" "02" "28") = true ->
         __eq__ c0 (PYMD (mkYMDDate "2024" "02" "28")) = Ret true)) /\
    (forall d,
        1 <= toordinal x + d <= MAXORDINAL ->
        exists b c,
          n_days (mkYMDDate "2024" "02" "28") (Some d) = Ret b /\
          n_days b (Some (- d)) = Ret c /\
          to_date c = Ret x /\
          (zero_padded (mkYMDDate "2024" "02" "28") = true ->
           __eq__ c (PYMD (mkYMDDate "2024" "02" "28")) = Ret true)).
Proof.
  apply (n_days_round_trip (PStr "2024-02-28") (mkYMDDate "2024" "02" "28")). reflexivity.
Defined.

(** ** [is_holiday] *)

Lemma holiday_loop_passes self pre rest :
  Forall (passes self) pre ->
  holiday_loop self (pre ++ rest) = holiday_loop self rest.
Proof.
  induction 1 as [|c pre Hc Hpre IH]; [reflexivity|].
  cbn [app holiday_loop]. destruct c as [s | x | t | h | | z]; cbn [passes] in Hc; try exact IH.
  - destruct Hc as (h & -> & ->). exact IH.
  - rewrite Hc. exact IH.
Qed.

Lemma is_holiday_loop self l : is_holiday self l = holiday_loop self l.
Proof. destruct l; reflexivity. Qed.

(** The four outcomes of [is_holiday] when no candidate makes the
    constructor raise anything else than [ValueError]. *)
Lemma is_holiday_cases self :
  is_holiday self [] = Ret (Some false) /\
  (forall pre s post,
      Forall (passes self) pre -> __init__ (PStr s) = Raise ValueError ->
      is_holiday self (pre ++ PStr s :: post) = Ret None) /\
  (forall pre c post,
      Forall (passes self) pre -> hits self c ->
      is_holiday self (pre ++ c :: post) = Ret (Some true)) /\
  (forall l, Forall (passes self) l -> is_holiday self l = Ret (Some false)).
Proof.
  split; [reflexivity|]. split; [|split].
  - intros pre s post Hpre Hs. rewrite is_holiday_loop, holiday_loop_passes by exact Hpre.
    cbn [holiday_loop]. rewrite Hs. reflexivity.
  - intros pre c post Hpre Hc. rewrite is_holiday_loop, holiday_loop_passes by exact Hpre.
    cbn [holiday_loop]. destruct c as [s | x | t | h | | z]; cbn [hits] in Hc; try contradiction.
    + destruct Hc as (h & -> & ->). reflexivity.
    + rewrite Hc. reflexivity.
  - intros l Hl. rewrite is_holiday_loop.
    rewrite <- (app_nil_r l). rewrite holiday_loop_passes by exact Hl. reflexivity.
Qed.

(** C7.  Two text candidates that are not dates of the shape
    YYYY-MM-DD and for which [is_holiday] does not return [None].  For
    the first the day field passes the pattern, is too large for the
    date constructor, and the [OverflowError] is not caught by the
    handler for [ValueError]: [is_holiday] raises.  The second is read
    as the fourth of July, the very date of the instance, and is then
    found different from it because the text of the day differs:
    [is_holiday] returns [False]. *)
Theorem is_holiday_misreads_candidates :
  __init__ (PStr "2024-07-04") = Ret (mkYMDDate "2024" "07" "04") /\
  ymd_fields "2024-01-0199999999999" = None /\
  __init__ (PStr "2024-01-0199999999999") = Raise OverflowError /\
  is_holiday (mkYMDDate "2024" "07" "04") [PStr "2024-01-0199999999999"] = Raise OverflowError /\
  ymd_fields "2024-07-004" = None /\
  (r <- __init__ (PStr "2024-07-004") ;; to_date r) = to_date (mkYMDDate "2024" "07" "04") /\
  is_holiday (mkYMDDate "2024" "07" "04") [PStr "2024-07-004"] = Ret (Some false).
Proof. repeat split. Qed.

(** ** Unit selectors *)

Lemma upper_char_not_nil c : Text.upper_char c <> [].
Proof.
  unfold Text.upper_char.
  repeat match goal with |- context [if ?b then _ else _] => destruct b end; discriminate.
Qed.

Lemma upper_nil s : Text.upper s = [] -> s = EmptyString.
Proof.
  destruct s as [|c s]; [reflexivity|]. cbn [Text.upper]. intros H.
  apply app_eq_nil in H. destruct H as [H _]. destruct (upper_char_not_nil c H).
Qed.

Lemma codes_eqb_eq a : forall b, Text.codes_eqb a b = true <-> a = b.
Proof.
  induction a as [|x a IH]; intros [|y b]; cbn [Text.codes_eqb]; split; try discriminate; try reflexivity.
  - rewrite andb_true_iff, Z.eqb_eq, IH. intros [-> ->]. reflexivity.
  - intros [= -> ->]. rewrite andb_true_iff, Z.eqb_eq, IH. tauto.
Qed.

Lemma upper_char_W c : Text.upper_char c = [87] -> c = "W"%char \/ c = "w"%char.
Proof.
  destruct c as [[] [] [] [] [] [] [] []]; vm_compute; intros H;
    first [discriminate H | left; reflexivity | right; reflexivity].
Qed.

Lemma upper_char_D c : Text.upper_char c = [68] -> c = "D"%char \/ c = "d"%char.
Proof.
  destruct c as [[] [] [] [] [] [] [] []]; vm_compute; intros H;
    first [discriminate H | left; reflexivity | right; reflexivity].
Qed.

Lemma upper_single s k :
  Text.upper s = [k] -> exists c, s = String c EmptyString /\ Text.upper_char c = [k].
Proof.
  destruct s as [|c s]; [discriminate|]. cbn [Text.upper]. intros H.
  pose proof (upper_char_not_nil c) as Hne.
  destruct (Text.upper_char c) as [|x [|y l]] eqn:E; [congruence| |discriminate H].
  cbn [app] in H. injection H as -> H. apply upper_nil in H. subst s. eauto.
Qed.

(** [units.upper() == 'W'] holds for the two texts [W] and [w] only,
    and similarly for [D]. *)
Lemma upper_is_W units : upper_is units "W" = true <-> units = "W"%string \/ units = "w"%string.
Proof.
  unfold upper_is. rewrite codes_eqb_eq. change (Text.codes "W") with [87]. split.
  - intros H. apply upper_single in H. destruct H as (c & -> & H).
    destruct (upper_char_W c H) as [-> | ->]; auto.
  - intros [-> | ->]; reflexivity.
Qed.

Lemma upper_is_D units : upper_is units "D" = true <-> units = "D"%string \/ units = "d"%string.
Proof.
  unfold upper_is. rewrite codes_eqb_eq. change (Text.codes "D") with [68]. split.
  - intros H. apply upper_single in H. destruct H as (c & -> & H).
    destruct (upper_char_D c H) as [-> | ->]; auto.
  - intros [-> | ->]; reflexivity.
Qed.

(** C8, as the claim states it, fails for [n = 0]: the copy is returned
    before the unit selector is looked at. *)
Lemma n_months_zero_with_unknown_unit :
  __init__ (PStr "2024-03-07") = Ret (mkYMDDate "2024" "03" "07") /\
  upper_is "X" "W" = false /\ upper_is "X" "D" = false /\
  n_months (mkYMDDate "2024" "03" "07") (Some 0) "X" 4 30
  = Ret (Some (mkYMDDate "2024" "03" "07")).
Proof. repeat split. Qed.

(** C8, amended.  For a number of months other than zero and a unit
    selector that is none of [W], [w], [D], [d], [n_months] raises
    [ValueError]. *)
Theorem n_months_unknown_unit (self : YMDDate) (n : Z) (units : string) (wpm dpm : Z) :
  n <> 0 ->
  units <> "W"%string -> units <> "w"%string ->
  units <> "D"%string -> units <> "d"%string ->
  n_months self (Some n) units wpm dpm = Raise ValueError.
Proof.
  intros Hn HW Hw HD Hd. unfold n_months.
  replace (n =? 0) with false by (symmetry; apply Z.eqb_neq; exact Hn).
  destruct (upper_is units "W") eqn:EW.
  - apply upper_is_W in EW. tauto.
  - destruct (upper_is units "D") eqn:ED; [|reflexivity].
    apply upper_is_D in ED. tauto.
Qed.

Lemma n_months_unknown_unit_witness :
  n_months (mkYMDDate "2024" "03" "07") (Some 2) "months" 4 30 = Raise ValueError.
Proof.
  apply (n_months_unknown_unit (mkYMDDate "2024" "03" "07") 2 "months" 4 30); discriminate.
Defined.

(** C10.  With zero months, or zero years, a constructed instance
    denoting [x] gives the instance of [x] whatever the unit selector
    and the factors are: the selector is not looked at. *)
Theorem zero_offset_ignores_units (v : pyval) (a : YMDDate)
    (units : string) (wpm dpm dpy wpy : Z) :
  __init__ v = Ret a ->
  exists x,
    to_date a = Ret x /\
    n_months a (Some 0) units wpm dpm = Ret (Some (ymd_of_date x)) /\
    n_years a (Some 0) units dpy wpy = Ret (Some (ymd_of_date x)) /\
    to_date (ymd_of_date x) = Ret x /\
    (zero_padded a = true -> __eq__ (ymd_of_date x) (PYMD a) = Ret true).
Proof.
  intros Hc. apply init_constructible, constructible_to_date in Hc. destruct Hc as (x & Ha).
  pose proof (to_date_valid a x Ha) as V. exists x.
  split; [exact Ha|]. unfold n_months, n_years. cbn [Z.eqb].
  rewrite (to_datetime_of_to_date a x Ha). cbn [bind].
  rewrite init_datetime by exact V. cbn [bind dt_date].
  repeat split.
  - apply to_date_canonical, V.
  - intros Z. rewrite <- (zero_padded_canonical a x Z Ha). apply eq_refl_instance.
Qed.

Lemma zero_offset_ignores_units_witness :
  exists x,
    to_date (mkYMDDate "2024" "03" "07") = Ret x /\
    n_months (mkYMDDate "2024" "03" "07") (Some 0) "fortnight" 4 30 = Ret (Some (ymd_of_date x)) /\
    n_years (mkYMDDate "2024" "03" "07") (Some 0) "fortnight" 365 52 = Ret (Some (ymd_of_date x)) /\
    to_date (ymd_of_date x) = Ret x /\
    (zero_padded (mkYMDDate "2024" "03" "07") = true ->
     __eq__ (ymd_of_date x) (PYMD (mkYMDDate "2024" "03" "07")) = Ret true).
Proof.
  apply (zero_offset_ignores_units (PStr "2024-03-07")). reflexivity.
Defined.

(** ** [next_business_day] *)

Section BusinessDays.

Variable holidays : provider.

Lemma skipped_false d : skipped holidays d = Ret false <-> business_day holidays d.
Proof.
  unfold skipped, business_day.
  destruct (is_us_federal_holiday holidays d) as [[|]|e]; cbn [bind].
  - split; [discriminate | intros [H _]; discriminate H].
  - split; [intros H; split; [reflexivity | exact H] | intros [_ H]; exact H].
  - split; [discriminate | intros [H _]; discriminate H].
Qed.

Lemma skipped_true d : skipped holidays d = Ret true <-> passed_over holidays d.
Proof.
  unfold skipped, passed_over.
  destruct (is_us_federal_holiday holidays d) as [[|]|e]; cbn [bind].
  - split; [intros _; left; reflexivity | reflexivity].
  - split; [intros H; right; split; [reflexivity | exact H]|].
    intros [H | [_ H]]; [discriminate H | exact H].
  - split; [discriminate|]. intros [H | [H _]]; discriminate H.
Qed.

Lemma tomorrow_day_at x k :
  1 <= toordinal x + k <= MAXORDINAL ->
  tomorrow (day_at x k)
  = if toordinal x + (k + 1) <=? MAXORDINAL then Ret (day_at x (k + 1)) else Raise OverflowError.
Proof.
  intros H. rewrite (tomorrow_spec _ _ (day_at_to_date x k H)).
  destruct (fromordinal_valid _ H) as [_ ->]. rewrite <- Z.add_assoc.
  rewrite day_at_shift by exact H. reflexivity.
Qed.

(** The loop started on the day [k] days after [x] returns [r]
    exactly when [r] is the first business day from there on, and the
    bound on the iterations is large enough to reach it. *)
Lemma business_loop_spec x r fuel : forall k,
  1 <= toordinal x + k <= MAXORDINAL ->
  (business_loop holidays fuel (day_at x k) = Some (Ret r) <->
   exists j, k <= j < k + Z.of_nat fuel /\ toordinal x + j <= MAXORDINAL /\
             r = day_at x j /\
             (forall i, k <= i < j -> passed_over holidays (day_at x i)) /\
             business_day holidays (day_at x j)).
Proof.
  induction fuel as [|fuel IH]; intros k Hk.
  - cbn [business_loop]. split; [discriminate|]. intros (j & Hj & _). lia.
  - cbn [business_loop].
    destruct (skipped holidays (day_at x k)) as [[|]|e] eqn:Es.
    + (* stepped over *)
      rewrite (tomorrow_day_at x k Hk).
      destruct (Z.leb_spec (toordinal x + (k + 1)) MAXORDINAL) as [L | G].
      * rewrite (IH (k + 1)) by lia. split.
        -- intros (j & Hj & Hmax & -> & Hbefore & Hlast).
           exists j. split; [lia|]. split; [exact Hmax|]. split; [reflexivity|].
           split; [|exact Hlast].
           intros i Hi. destruct (Z.eq_dec i k) as [-> | Hne].
           ++ apply skipped_true, Es.
           ++ apply Hbefore. lia.
        -- intros (j & Hj & Hmax & -> & Hbefore & Hlast).
           assert (j <> k).
           { intros ->. apply skipped_false in Hlast. congruence. }
           exists j. split; [lia|]. split; [exact Hmax|]. split; [reflexivity|].
           split; [|exact Hlast].
           intros i Hi. apply Hbefore. lia.
      * split; [discriminate|].
        intros (j & Hj & Hmax & -> & Hbefore & Hlast).
        assert (j = k) by lia. subst j.
        apply skipped_false in Hlast. congruence.
    + (* found *)
      split.
      * intros H. injection H as <-. exists k.
        split; [lia|]. split; [lia|]. split; [reflexivity|].
        split; [intros i Hi; lia | apply skipped_false, Es].
      * intros (j & Hj & Hmax & -> & Hbefore & Hlast).
        destruct (Z.eq_dec j k) as [-> | Hne]; [reflexivity|].
        assert (Hp : passed_over holidays (day_at x k)) by (apply Hbefore; lia).
        apply skipped_true in Hp. congruence.
    + split; [discriminate|].
      intros (j & Hj & Hmax & -> & Hbefore & Hlast).
      destruct (Z.eq_dec j k) as [-> | Hne].
      * apply skipped_false in Hlast. congruence.
      * assert (Hp : passed_over holidays (day_at x k)) by (apply Hbefore; lia).
        apply skipped_true in Hp. congruence.
Qed.

(** At the last day of the calendar the search fails at once, whatever
    the holidays are. *)
Lemma next_business_day_overflow fuel :
  next_business_day holidays fuel (mkYMDDate "9999" "12" "31") = Some (Raise OverflowError).
Proof. reflexivity. Qed.

(** C9, amended.  A constructed instance denotes a date [x], and
    [next_business_day] returns [r] exactly when [r] is the instance of
    the day [j >= 1] days after [x], within the calendar and within the
    bound on the iterations, that is neither a federal holiday nor a
    week-end day, while every day strictly between [x] and it is one or
    the other. *)
Theorem next_business_day_first (v : pyval) (a : YMDDate) :
  __init__ v = Ret a ->
  exists x,
    to_date a = Ret x /\
    forall fuel r,
      next_business_day holidays fuel a = Some (Ret r) <->
      exists j, 1 <= j <= Z.of_nat fuel /\ toordinal x + j <= MAXORDINAL /\
                r = day_at x j /\
                (forall i, 1 <= i < j -> passed_over holidays (day_at x i)) /\
                business_day holidays (day_at x j).
Proof.
  intros Hc. apply init_constructible, constructible_to_date in Hc. destruct Hc as (x & Ha).
  pose proof (to_date_valid a x Ha) as V.
  pose proof (toordinal_range x V) as R.
  exists x. split; [exact Ha|]. intros fuel r.
  unfold next_business_day. rewrite (tomorrow_spec a x Ha).
  destruct (Z.leb_spec (toordinal x + 1) MAXORDINAL) as [L | G].
  - rewrite (business_loop_spec x r fuel 1) by lia.
    split; intros (j & Hj & Hrest); exists j; (split; [lia | exact Hrest]).
  - split; [discriminate|]. intros (j & Hj & Hmax & _). lia.
Qed.

End BusinessDays.

(** C9, as the claim states it, fails at the last day of the calendar:
    the day after does not exist and the call raises. *)
Lemma next_business_day_fails_at_the_end :
  __init__ (PStr "9999-12-31") = Ret (mkYMDDate "9999" "12" "31") /\
  next_business_day holidays_2024 7 (mkYMDDate "9999" "12" "31") = Some (Raise OverflowError).
Proof. split; reflexivity. Qed.

Lemma next_business_day_first_witness :
  exists x,
    to_date (mkYMDDate "2024" "05" "24") = Ret x /\
    forall fuel r,
      next_business_day holidays_2024 fuel (mkYMDDate "2024" "05" "24") = Some (Ret r) <->
      exists j, 1 <= j <= Z.of_nat fuel /\ toordinal x + j <= MAXORDINAL /\
                r = day_at x j /\
                (forall i, 1 <= i < j -> passed_over holidays_2024 (day_at x i)) /\
                business_day holidays_2024 (day_at x j).
Proof.
  apply (next_business_day_first holidays_2024 (PStr "2024-05-24")). reflexivity.
Defined.

(** ** Scenarios *)

Example leap_day : is_ymd "2024-02-29" = Ret true /\ is_ymd "2023-02-29" = Ret false.
Proof. split; reflexivity. Qed.

Example leap_day_construction :
  __init__ (PStr "2024-02-29") = Ret (mkYMDDate "2024" "02" "29") /\
  __init__ (PStr "2023-02-29") = Raise ValueError.
Proof. split; reflexivity. Qed.

Example construction_from_datetime :
  __init__ (PDatetime (mkdatetime (mkdate 2024 7 4) 13 5 0 0))
  = Ret (mkYMDDate "2024" "07" "04").
Proof. reflexivity. Qed.

Example independence_day :
  is_us_federal_holiday holidays_2024 (mkYMDDate "2024" "07" "04") = Ret true /\
  is_us_federal_holiday holidays_2024 (mkYMDDate "2024" "07" "05") = Ret false.
Proof. split; reflexivity. Qed.

Example saturday : is_weekend (mkYMDDate "2024" "07" "06") = Ret true.
Proof. reflexivity. Qed.

Example malformed_candidate :
  is_holiday (mkYMDDate "2024" "07" "04") [PStr "not-a-date"] = Ret None.
Proof. reflexivity. Qed.

Example candidate_with_three_hyphens :
  is_holiday (mkYMDDate "2024" "07" "04") [PStr "2024-01-01-05"] = Ret None.
Proof. reflexivity. Qed.

Example tomorrow_across_february :
  tomorrow (mkYMDDate "2024" "02" "28") = Ret (mkYMDDate "2024" "02" "29") /\
  tomorrow (mkYMDDate "2023" "02" "28") = Ret (mkYMDDate "2023" "03" "01").
Proof. split; reflexivity. Qed.

Example ordinals :
  ymd2ord 9999 12 31 = MAXORDINAL /\ ord2ymd 738896 = (2024, 1, 11) /\
  weekday (mkdate 2024 7 6) = 5.
Proof. repeat split. Qed.

Example int_of_text :
  Text.int_of_str "011" = Ret 11 /\ Text.int_of_str "01_" = Raise ValueError /\
  Text.int_of_str " 7 " = Ret 7 /\ Text.int_of_str "- 1" = Raise ValueError.
Proof. repeat split. Qed.

Example str_of_datetime :
  str_datetime (mkdatetime (mkdate 99 1 5) 1 2 3 4) = "0099-01-05 01:02:03.000004"%string.
Proof. reflexivity. Qed.

Example friday_before_memorial_day :
  next_business_day holidays_2024 7 (mkYMDDate "2024" "05" "24")
  = Some (Ret (mkYMDDate "2024" "05" "28")).
Proof. reflexivity. Qed.

(* ------------------------------------------------------------------ *)
(** * Further properties of the module *)

(** ** Construction from dates and date-times *)

(** X1.  A valid [date] object is always accepted: the instance built
    from it converts back to the same [date] with [to_date], and its
    string is the ISO text of the date. *)
Theorem date_round_trip (x : date) :
  valid_date x = true ->
  is_ymd_date x = Ret true /\
  exists a, __init__ (PDate x) = Ret a /\ to_date a = Ret x /\ __str__ a = str_date x.
Proof.
  intros V. split; [apply is_ymd_str_date, V|].
  exists (ymd_of_date x). split; [apply init_date, V|].
  split; [apply to_date_canonical, V | reflexivity].
Qed.

Lemma date_round_trip_witness :
  is_ymd_date (mkdate 99 1 5) = Ret true /\
  exists a, __init__ (PDate (mkdate 99 1 5)) = Ret a /\ to_date a = Ret (mkdate 99 1 5)
            /\ __str__ a = str_date (mkdate 99 1 5).
Proof. apply (date_round_trip (mkdate 99 1 5)). reflexivity. Defined.

(** X2.  Of a [datetime] only the date counts: whatever the time of
    day, validation succeeds, the instance is the one built from the
    date alone, and [to_datetime] gives midnight of that date. *)
Theorem datetime_time_is_dropped (t : datetime) :
  valid_date (dt_date t) = true ->
  is_ymd_datetime t = Ret true /\
  __init__ (PDatetime t) = __init__ (PDate (dt_date t)) /\
  exists a, __init__ (PDatetime t) = Ret a /\
            to_datetime a = Ret (mkdatetime (dt_date t) 0 0 0 0).
Proof.
  intros V. split; [|split].
  - unfold is_ymd_datetime. rewrite before_space_str_datetime by exact V.
    apply is_ymd_str_date, V.
  - rewrite init_datetime, init_date by exact V. reflexivity.
  - exists (ymd_of_date (dt_date t)). split; [apply init_datetime, V|].
    apply to_datetime_of_to_date, to_date_canonical, V.
Qed.

Lemma datetime_time_is_dropped_witness :
  is_ymd_datetime (mkdatetime (mkdate 2024 7 4) 23 59 59 999999) = Ret true /\
  __init__ (PDatetime (mkdatetime (mkdate 2024 7 4) 23 59 59 999999))
    = __init__ (PDate (mkdate 2024 7 4)) /\
  exists a, __init__ (PDatetime (mkdatetime (mkdate 2024 7 4) 23 59 59 999999)) = Ret a /\
            to_datetime a = Ret (mkdatetime (mkdate 2024 7 4) 0 0 0 0).
Proof.
  apply (datetime_time_is_dropped (mkdatetime (mkdate 2024 7 4) 23 59 59 999999)). reflexivity.
Defined.

(** Every constructed instance was cut out of a text that [is_ymd]
    accepts and that its string gives back. *)
Lemma init_source_text v a :
  __init__ v = Ret a ->
  exists s, is_ymd s = Ret true /\
            _ymd_from_string s = Ret (_year a, _month a, _day a) /\ __str__ a = s.
Proof.
  assert (Hs : forall s y m d, is_ymd s = Ret true -> _ymd_from_string s = Ret (y, m, d) ->
     exists s', is_ymd s' = Ret true /\ _ymd_from_string s' = Ret (y, m, d)
                /\ __str__ (mkYMDDate y m d) = s').
  { intros s y m d Hok Hp. exists s. split; [exact Hok|]. split; [exact Hp|].
    unfold _ymd_from_string in Hp.
    destruct (Text.unpack3 (Text.split Text.hyphen s)) as [[[y' m'] d']|] eqn:E;
      cbn [bind] in Hp; [|discriminate].
    assert (y' = y /\ m' = m /\ d' = d) as (-> & -> & ->) by (repeat split; congruence).
    apply unpack3_join, E. }
  destruct v as [s | x | t | o | | z]; cbn [__init__]; try discriminate.
  - destruct (is_ymd s) as [[|]|] eqn:Hok; cbn [bind]; try discriminate.
    destruct (_ymd_from_string s) as [[[y m] d]|] eqn:Hp; cbn [bind]; try discriminate.
    intros H. assert (a = mkYMDDate y m d) as -> by congruence. eapply Hs; eassumption.
  - unfold is_ymd_date, _ymd_from_date.
    destruct (is_ymd (str_date x)) as [[|]|] eqn:Hok; cbn [bind]; try discriminate.
    destruct (_ymd_from_string (str_date x)) as [[[y m] d]|] eqn:Hp; cbn [bind]; try discriminate.
    intros H. assert (a = mkYMDDate y m d) as -> by congruence. eapply Hs; eassumption.
  - unfold is_ymd_datetime, _ymd_from_datetime.
    destruct (is_ymd (before_space (str_datetime t))) as [[|]|] eqn:Hok; cbn [bind]; try discriminate.
    destruct (_ymd_from_string (before_space (str_datetime t))) as [[[y m] d]|] eqn:Hp;
      cbn [bind]; try discriminate.
    intros H. assert (a = mkYMDDate y m d) as -> by congruence. eapply Hs; eassumption.
Qed.

(** X3.  Building an instance from the string of a constructed instance
    gives the same instance, whatever the first one was built from. *)
Theorem init_of_str (v : pyval) (a : YMDDate) :
  __init__ v = Ret a -> __init__ (PStr (__str__ a)) = Ret a.
Proof.
  intros H. destruct (init_source_text v a H) as (s & Hok & Hp & ->).
  cbn [__init__]. rewrite Hok. cbn [bind]. rewrite Hp. cbn [bind].
  destruct a; reflexivity.
Qed.

Lemma init_of_str_witness :
  __init__ (PStr (__str__ (mkYMDDate "2024" "07" "04"))) = Ret (mkYMDDate "2024" "07" "04").
Proof.
  apply (init_of_str (PDatetime (mkdatetime (mkdate 2024 7 4) 13 5 0 0))). reflexivity.
Defined.

(** X4.  Two constructed instances are equal for [__eq__] exactly when
    their strings are the same text. *)
Theorem eq_iff_same_str (v w : pyval) (a b : YMDDate) :
  __init__ v = Ret a -> __init__ w = Ret b ->
  (__eq__ a (PYMD b) = Ret true <-> __str__ a = __str__ b).
Proof.
  intros Ha Hb. rewrite eq_instances_iff. split; [intros ->; reflexivity|].
  intros E.
  destruct (init_source_text v a Ha) as (s & _ & Pa & Sa).
  destruct (init_source_text w b Hb) as (t & _ & Pb & Sb).
  assert (Est : t = s) by congruence. rewrite Est, Pa in Pb.
  destruct a, b. cbn [_year _month _day] in Pb. congruence.
Qed.

Lemma eq_iff_same_str_witness :
  __eq__ (mkYMDDate "2024" "07" "04") (PYMD (mkYMDDate "2024" "07" "04")) = Ret true <->
  __str__ (mkYMDDate "2024" "07" "04") = __str__ (mkYMDDate "2024" "07" "04").
Proof.
  apply (eq_iff_same_str (PStr "2024-07-04") (PDate (mkdate 2024 7 4))); reflexivity.
Defined.

(** ** Comparison with text, dates and date-times *)

(** X5.  Comparing an instance with a text, a [date] or a [datetime]
    from which an instance can be built is comparing it with that
    instance, for [==], [>] and [>=] alike. *)
Theorem compare_through_instance (a : YMDDate) (v : pyval) (b : YMDDate) :
  __init__ v = Ret b ->
  __eq__ a v = __eq__ a (PYMD b) /\
  __gt__ a v = __gt__ a (PYMD b) /\
  __ge__ a v = __ge__ a (PYMD b).
Proof.
  intros H. unfold __gt__, __ge__, ordering.
  destruct v as [s | x | t | o | | z]; cbn [__init__] in H; try discriminate H;
    cbn [__eq__].
  - destruct (is_ymd s) as [[|]|]; cbn [bind] in H; try discriminate H.
    cbn [__eq__ bind].
    destruct (_ymd_from_string s) as [[[y m] d]|]; cbn [bind] in *; [|discriminate H].
    assert (b = mkYMDDate y m d) as -> by congruence. cbn [_year _month _day].
    repeat split.
  - destruct (is_ymd_date x) as [[|]|]; cbn [bind] in H; try discriminate H.
    cbn [__eq__ bind].
    destruct (_ymd_from_date x) as [[[y m] d]|]; cbn [bind] in *; [|discriminate H].
    assert (b = mkYMDDate y m d) as -> by congruence. cbn [_year _month _day].
    repeat split.
  - destruct (is_ymd_datetime t) as [[|]|]; cbn [bind] in H; try discriminate H.
    cbn [__eq__ bind].
    destruct (_ymd_from_datetime t) as [[[y m] d]|]; cbn [bind] in *; [|discriminate H].
    assert (b = mkYMDDate y m d) as -> by congruence. cbn [_year _month _day].
    repeat split.
Qed.

Lemma compare_through_instance_witness :
  __eq__ (mkYMDDate "2024" "07" "04") (PDate (mkdate 2024 7 5))
    = __eq__ (mkYMDDate "2024" "07" "04") (PYMD (mkYMDDate "2024" "07" "05")) /\
  __gt__ (mkYMDDate "2024" "07" "04") (PDate (mkdate 2024 7 5))
    = __gt__ (mkYMDDate "2024" "07" "04") (PYMD (mkYMDDate "2024" "07" "05")) /\
  __ge__ (mkYMDDate "2024" "07" "04") (PDate (mkdate 2024 7 5))
    = __ge__ (mkYMDDate "2024" "07" "04") (PYMD (mkYMDDate "2024" "07" "05")).
Proof.
  apply (compare_through_instance (mkYMDDate "2024" "07" "04") (PDate (mkdate 2024 7 5))).
  reflexivity.
Defined.

(** X27.  For a text of the exact shape YYYY-MM-DD the outcome is
    decided by the calendar alone: a valid date gives the instance made
    of the three parts of the text, anything else makes [is_ymd] answer
    false and the constructor raise [ValueError]. *)
Theorem exact_shape_construction (s : string) (y m d : Z) :
  ymd_fields s = Some (y, m, d) ->
  (valid_ymd y m d = true ->
   is_ymd s = Ret true /\ __init__ (PStr s) = Ret (ymd_of_date (mkdate y m d)) /\
   to_date (ymd_of_date (mkdate y m d)) = Ret (mkdate y m d)) /\
  (valid_ymd y m d = false ->
   is_ymd s = Ret false /\ __init__ (PStr s) = Raise ValueError).
Proof.
  intros H. pose proof (is_ymd_exact_shape s y m d H) as E. split; intros V; rewrite V in E.
  - split; [exact E|]. split; [apply init_exact_shape; assumption|].
    apply to_date_canonical. exact V.
  - split; [exact E|]. cbn [__init__]. rewrite E. reflexivity.
Qed.

Lemma exact_shape_construction_witness :
  (valid_ymd 2023 2 29 = true ->
   is_ymd "2023-02-29" = Ret true /\
   __init__ (PStr "2023-02-29") = Ret (ymd_of_date (mkdate 2023 2 29)) /\
   to_date (ymd_of_date (mkdate 2023 2 29)) = Ret (mkdate 2023 2 29)) /\
  (valid_ymd 2023 2 29 = false ->
   is_ymd "2023-02-29" = Ret false /\ __init__ (PStr "2023-02-29") = Raise ValueError).
Proof. apply (exact_shape_construction "2023-02-29" 2023 2 29). reflexivity. Defined.

Lemma init_to_date v a : __init__ v = Ret a -> exists x, to_date a = Ret x.
Proof. intros H. apply constructible_to_date, (init_constructible v), H. Qed.

Lemma this_date_of a x :
  to_date a = Ret x -> date_of_text (_year a) (_month a) (_day a) = Ret x.
Proof. intros H. exact H. Qed.

(** X6.  Against an operand that is not read as a date (another kind
    of value, or a text, [date] or [datetime] that its validator
    refuses) the three comparisons of a constructed instance all answer
    false, so that the derived less-than answers true. *)
Theorem compare_with_refused (w : pyval) (a : YMDDate) (v : pyval) :
  __init__ w = Ret a ->
  refused v ->
  __eq__ a v = Ret false /\ __gt__ a v = Ret false /\ __ge__ a v = Ret false /\
  less_than a v = Ret true.
Proof.
  intros Ha Hv. destruct (init_to_date w a Ha) as (x & Hx).
  unfold less_than, __gt__, __ge__, ordering. rewrite (this_date_of a x Hx). cbn [bind].
  destruct v as [s | d | t | o | | z]; cbn [refused] in Hv; cbn [__eq__];
    try contradiction; try rewrite Hv; cbn [bind negb]; repeat split.
Qed.

Lemma compare_with_refused_witness :
  __eq__ (mkYMDDate "2024" "07" "04") (PStr "04/07/2024") = Ret false /\
  __gt__ (mkYMDDate "2024" "07" "04") (PStr "04/07/2024") = Ret false /\
  __ge__ (mkYMDDate "2024" "07" "04") (PStr "04/07/2024") = Ret false /\
  less_than (mkYMDDate "2024" "07" "04") (PStr "04/07/2024") = Ret true.
Proof.
  apply (compare_with_refused (PStr "2024-07-04")); reflexivity.
Defined.

(** ** Text with a third hyphen *)

Lemma match_prefix_app pat : forall s t,
  Text.match_prefix pat s = true -> Text.match_prefix pat (s ++ t) = true.
Proof.
  induction pat as [|p pat IH]; intros s t H; [reflexivity|].
  destruct s as [|c s]; cbn [Text.match_prefix append] in *; [discriminate|].
  apply andb_true_iff in H. destruct H as [-> H]. cbn [andb]. apply IH, H.
Qed.

Lemma append_assoc (a b c : string) : ((a ++ b) ++ c = a ++ (b ++ c))%string.
Proof. induction a as [|x a IH]; cbn [append]; [reflexivity|]. rewrite IH. reflexivity. Qed.

Lemma is_ymd_third_hyphen s y m d rest :
  ymd_fields s = Some (y, m, d) ->
  is_ymd (s ++ "-" ++ rest) = Raise ValueError.
Proof.
  intros H. destruct (ymd_fields_parts s y m d H)
    as (a & b & c & E & A1 & A2 & B1 & B2 & C1 & C2 & _).
  unfold is_ymd. rewrite match_prefix_app.
  2:{ rewrite E. apply match_prefix_canonical; assumption. }
  cbn [negb]. rewrite E.
  replace ((a ++ "-" ++ b ++ "-" ++ c) ++ "-" ++ rest)%string
    with (a ++ String Text.hyphen (b ++ String Text.hyphen (c ++ String Text.hyphen rest)))%string.
  2:{ rewrite !append_assoc. reflexivity. }
  rewrite !split_app by (apply all_digits_no; [reflexivity | assumption]).
  pose proof (split_not_nil Text.hyphen rest) as Hne.
  destruct (Text.split Text.hyphen rest) as [|h t]; [congruence|]. reflexivity.
Qed.

(** X7.  A text made of a well-shaped date followed by a hyphen and
    anything else is not answered false: [is_ymd] raises [ValueError]
    (the split has more than three parts), and so do the constructor
    and the three comparisons of a constructed instance with that text;
    as a candidate of [is_holiday] it gives [None]. *)
Theorem third_hyphen_raises (w : pyval) (a : YMDDate) (s : string) (y m d : Z) (rest : string) :
  __init__ w = Ret a ->
  ymd_fields s = Some (y, m, d) ->
  is_ymd (s ++ "-" ++ rest) = Raise ValueError /\
  __init__ (PStr (s ++ "-" ++ rest)) = Raise ValueError /\
  __eq__ a (PStr (s ++ "-" ++ rest)) = Raise ValueError /\
  __gt__ a (PStr (s ++ "-" ++ rest)) = Raise ValueError /\
  __ge__ a (PStr (s ++ "-" ++ rest)) = Raise ValueError /\
  is_holiday a [PStr (s ++ "-" ++ rest)] = Ret None.
Proof.
  intros Ha H. destruct (init_to_date w a Ha) as (x & Hx).
  pose proof (is_ymd_third_hyphen s y m d rest H) as E.
  unfold __gt__, __ge__, ordering. rewrite (this_date_of a x Hx).
  cbn [__init__ __eq__ is_holiday holiday_loop List.length Nat.eqb bind].
  rewrite E. cbn [bind]. repeat split.
Qed.

Lemma third_hyphen_raises_witness :
  is_ymd ("2024-01-01" ++ "-" ++ "05") = Raise ValueError /\
  __init__ (PStr ("2024-01-01" ++ "-" ++ "05")) = Raise ValueError /\
  __eq__ (mkYMDDate "2024" "07" "04") (PStr ("2024-01-01" ++ "-" ++ "05")) = Raise ValueError /\
  __gt__ (mkYMDDate "2024" "07" "04") (PStr ("2024-01-01" ++ "-" ++ "05")) = Raise ValueError /\
  __ge__ (mkYMDDate "2024" "07" "04") (PStr ("2024-01-01" ++ "-" ++ "05")) = Raise ValueError /\
  is_holiday (mkYMDDate "2024" "07" "04") [PStr ("2024-01-01" ++ "-" ++ "05")] = Ret None.
Proof.
  apply (third_hyphen_raises (PStr "2024-07-04") (mkYMDDate "2024" "07" "04")
           "2024-01-01" 2024 1 1 "05"); reflexivity.
Defined.

(** ** The ordering of instances *)

Lemma day_of_year_lt y m1 d1 m2 d2 :
  1 <= m1 <= 12 -> 1 <= d1 <= days_in_month y m1 ->
  1 <= m2 <= 12 -> 1 <= d2 <= days_in_month y m2 ->
  m1 < m2 \/ (m1 = m2 /\ d1 < d2) ->
  days_before_month y m1 + d1 < days_before_month y m2 + d2.
Proof.
  intros Hm1 Hd1 Hm2 Hd2. unfold days_before_month, days_in_month in *.
  destruct (is_leap y);
  destruct (month_cases m1 Hm1) as [?|[?|[?|[?|[?|[?|[?|[?|[?|[?|[?|?]]]]]]]]]]]; subst m1;
  destruct (month_cases m2 Hm2) as [?|[?|[?|[?|[?|[?|[?|[?|[?|[?|[?|?]]]]]]]]]]]; subst m2;
  revert Hd1 Hd2; eval_tests; lia.
Qed.

Lemma date_lt_ordinal x y :
  valid_date x = true -> valid_date y = true ->
  date_compare x y = Lt -> toordinal x < toordinal y.
Proof.
  unfold valid_date, toordinal, date_compare. intros Vx Vy.
  pose proof (ymd2ord_bounds _ _ _ Vx) as Bx. pose proof (ymd2ord_bounds _ _ _ Vy) as By.
  apply valid_ymd_iff in Vx, Vy.
  destruct Vx as (_ & Hm1 & Hd1), Vy as (_ & Hm2 & Hd2).
  destruct (Z.compare_spec (year x) (year y)) as [Ey | Ly | Gy]; try discriminate.
  - destruct (Z.compare_spec (month x) (month y)) as [Em | Lm | Gm]; try discriminate.
    + intros Hd. rewrite Z.compare_lt_iff in Hd. unfold ymd2ord. rewrite <- Ey in *.
      assert (L : month x < month y \/ (month x = month y /\ day x < day y)) by lia.
      pose proof (day_of_year_lt (year x) _ _ _ _ Hm1 Hd1 Hm2 Hd2 L). lia.
    + intros _. unfold ymd2ord. rewrite <- Ey in *.
      assert (L : month x < month y \/ (month x = month y /\ day x < day y)) by lia.
      pose proof (day_of_year_lt (year x) _ _ _ _ Hm1 Hd1 Hm2 Hd2 L). lia.
  - intros _. pose proof (dby_mono (year x + 1) (year y) ltac:(lia)). lia.
Qed.

Lemma date_compare_antisym x y : date_compare y x = CompOpp (date_compare x y).
Proof.
  unfold date_compare.
  rewrite (Z.compare_antisym (year x) (year y)), (Z.compare_antisym (month x) (month y)),
    (Z.compare_antisym (day x) (day y)).
  destruct (year x ?= year y); cbn [CompOpp]; try reflexivity.
  destruct (month x ?= month y); cbn [CompOpp]; reflexivity.
Qed.

(** On valid dates the order of [date] objects is the order of their
    ordinals. *)
Lemma date_compare_ordinal x y :
  valid_date x = true -> valid_date y = true ->
  date_compare x y = (toordinal x ?= toordinal y).
Proof.
  intros Vx Vy. destruct (date_compare x y) eqn:E; symmetry.
  - apply date_compare_eq in E. subst. apply Z.compare_refl.
  - apply Z.compare_lt_iff, date_lt_ordinal; assumption.
  - apply Z.compare_gt_iff. apply date_lt_ordinal; try assumption.
    rewrite date_compare_antisym, E. reflexivity.
Qed.

Lemma gt_instances a b x y :
  to_date a = Ret x -> to_date b = Ret y ->
  __gt__ a (PYMD b) = Ret (toordinal y <? toordinal x) /\
  __ge__ a (PYMD b) = Ret (toordinal y <=? toordinal x).
Proof.
  intros Ha Hb. unfold __gt__, __ge__.
  rewrite !(ordering_instances _ a b x y Ha Hb).
  unfold date_gtb, date_geb.
  rewrite (date_compare_ordinal x y (to_date_valid a x Ha) (to_date_valid b y Hb)).
  destruct (Z.compare_spec (toordinal x) (toordinal y)); split; f_equal; symmetry; b2p; lia.
Qed.

(** X8.  On constructed instances no instance is greater than itself,
    and [>=] is the negation of the reversed [>]: of any two instances
    one is [>=] the other. *)
Theorem ge_is_not_lt (v w : pyval) (a b : YMDDate) :
  __init__ v = Ret a -> __init__ w = Ret b ->
  __gt__ a (PYMD a) = Ret false /\
  exists g, __ge__ a (PYMD b) = Ret g /\ __gt__ b (PYMD a) = Ret (negb g).
Proof.
  intros Ha Hb. destruct (init_to_date v a Ha) as (x & Hx).
  destruct (init_to_date w b Hb) as (y & Hy).
  destruct (gt_instances a a x x Hx Hx) as [Haa _].
  destruct (gt_instances a b x y Hx Hy) as [_ Hge].
  destruct (gt_instances b a y x Hy Hx) as [Hgt _].
  split; [rewrite Haa; f_equal; apply Z.ltb_irrefl|].
  exists (toordinal y <=? toordinal x). split; [exact Hge|]. rewrite Hgt. f_equal.
  destruct (Z.leb_spec (toordinal y) (toordinal x)); cbn [negb]; b2p; lia.
Qed.

Lemma ge_is_not_lt_witness :
  __gt__ (mkYMDDate "2024" "07" "04") (PYMD (mkYMDDate "2024" "07" "04")) = Ret false /\
  exists g,
    __ge__ (mkYMDDate "2024" "07" "04") (PYMD (mkYMDDate "2024" "01" "011")) = Ret g /\
    __gt__ (mkYMDDate "2024" "01" "011") (PYMD (mkYMDDate "2024" "07" "04")) = Ret (negb g).
Proof.
  apply (ge_is_not_lt (PStr "2024-07-04") (PStr "2024-01-011")); reflexivity.
Defined.

(** X9.  On constructed instances greater-than is transitive. *)
Theorem gt_transitive (u v w : pyval) (a b c : YMDDate) :
  __init__ u = Ret a -> __init__ v = Ret b -> __init__ w = Ret c ->
  __gt__ a (PYMD b) = Ret true -> __gt__ b (PYMD c) = Ret true ->
  __gt__ a (PYMD c) = Ret true.
Proof.
  intros Ha Hb Hc. destruct (init_to_date u a Ha) as (x & Hx).
  destruct (init_to_date v b Hb) as (y & Hy). destruct (init_to_date w c Hc) as (z & Hz).
  destruct (gt_instances a b x y Hx Hy) as [Hab _].
  destruct (gt_instances b c y z Hy Hz) as [Hbc _].
  destruct (gt_instances a c x z Hx Hz) as [Hac _].
  rewrite Hab, Hbc, Hac.
  intros H1 H2. f_equal. injection H1 as H1. injection H2 as H2. b2p. lia.
Qed.

Lemma gt_transitive_witness :
  __gt__ (mkYMDDate "2024" "07" "04") (PYMD (mkYMDDate "2023" "12" "31")) = Ret true.
Proof.
  apply (gt_transitive (PStr "2024-07-04") (PStr "2024-02-29") (PStr "2023-12-31")
           (mkYMDDate "2024" "07" "04") (mkYMDDate "2024" "02" "29") (mkYMDDate "2023" "12" "31"));
    reflexivity.
Defined.

(** ** Day, week, month and year offsets *)

(** X10.  Offsets by days add up: moving an instance that denotes the
    date [x] by [d1] days and the result by [d2] days is moving it by
    [d1 + d2] days, as long as both stops are within the calendar. *)
Theorem n_days_compose (a : YMDDate) (x : date) (d1 d2 : Z) :
  to_date a = Ret x ->
  1 <= toordinal x + d1 <= MAXORDINAL ->
  1 <= toordinal x + (d1 + d2) <= MAXORDINAL ->
  exists b, n_days a (Some d1) = Ret b /\ n_days b (Some d2) = n_days a (Some (d1 + d2)).
Proof.
  intros Ha H1 H2. exists (day_at x d1).
  split; [apply n_days_spec; assumption|].
  destruct (fromordinal_valid _ H1) as [V1 O1].
  rewrite (n_days_spec (day_at x d1) (fromordinal (toordinal x + d1)) d2).
  - rewrite day_at_shift by exact H1. symmetry. apply n_days_spec; assumption.
  - apply day_at_to_date, H1.
  - rewrite O1. lia.
Qed.

Lemma n_days_compose_witness :
  exists b, n_days (mkYMDDate "2024" "02" "28") (Some 10) = Ret b /\
            n_days b (Some (- 3)) = n_days (mkYMDDate "2024" "02" "28") (Some (10 + - 3)).
Proof.
  apply (n_days_compose (mkYMDDate "2024" "02" "28") (mkdate 2024 2 28)).
  - reflexivity.
  - vm_compute. split; discriminate.
  - vm_compute. split; discriminate.
Defined.

(** X11.  Within the calendar [n_days d] on an instance that denotes
    the date [x] lands exactly [d] days away (the ordinal of the result
    is the ordinal of [x] plus [d]),
    and the result is greater than the instance exactly when [d] is
    positive, greater or equal exactly when [d] is not negative. *)
Theorem n_days_direction (a : YMDDate) (x : date) (d : Z) :
  to_date a = Ret x ->
  1 <= toordinal x + d <= MAXORDINAL ->
  exists b y,
    n_days a (Some d) = Ret b /\ to_date b = Ret y /\
    toordinal y = toordinal x + d /\
    __gt__ b (PYMD a) = Ret (0 <? d) /\ __ge__ b (PYMD a) = Ret (0 <=? d).
Proof.
  intros Ha H. destruct (fromordinal_valid _ H) as [Vy Oy].
  exists (day_at x d), (fromordinal (toordinal x + d)).
  pose proof (day_at_to_date x d H) as Hb.
  split; [apply n_days_spec; assumption|]. split; [exact Hb|]. split; [exact Oy|].
  destruct (gt_instances _ _ _ _ Hb Ha) as [Hgt Hge]. rewrite Hgt, Hge, Oy.
  split; f_equal.
  - destruct (Z.ltb_spec 0 d); b2p; lia.
  - destruct (Z.leb_spec 0 d); b2p; lia.
Qed.

Lemma n_days_direction_witness :
  exists b y,
    n_days (mkYMDDate "2024" "02" "28") (Some (- 59)) = Ret b /\ to_date b = Ret y /\
    toordinal y = toordinal (mkdate 2024 2 28) + - 59 /\
    __gt__ b (PYMD (mkYMDDate "2024" "02" "28")) = Ret (0 <? - 59) /\
    __ge__ b (PYMD (mkYMDDate "2024" "02" "28")) = Ret (0 <=? - 59).
Proof.
  apply (n_days_direction (mkYMDDate "2024" "02" "28") (mkdate 2024 2 28) (- 59)).
  - reflexivity.
  - vm_compute. split; discriminate.
Defined.

(** X12.  Outside the calendar there is no result: when the day [d]
    days away from the date [x] of an instance is before 0001-01-01 or
    after 9999-12-31, [n_days d] raises [OverflowError]. *)
Theorem n_days_overflow (a : YMDDate) (x : date) (d : Z) :
  to_date a = Ret x ->
  toordinal x + d < 1 \/ MAXORDINAL < toordinal x + d ->
  n_days a (Some d) = Raise OverflowError.
Proof.
  intros Ha H. apply (n_days_out_of_range a x d Ha). lia.
Qed.

Lemma n_days_overflow_witness :
  n_days (mkYMDDate "0001" "01" "01") (Some (- 1)) = Raise OverflowError.
Proof.
  apply (n_days_overflow (mkYMDDate "0001" "01" "01") (mkdate 1 1 1) (- 1)).
  - reflexivity.
  - left. vm_compute. reflexivity.
Defined.

(** X13.  An offset by weeks is the offset by seven times as many
    days, for every instance and every number of weeks, failures
    included; [next_week] is the offset by one week, that is by seven
    days, and [tomorrow] the offset by one day. *)
Theorem n_weeks_is_n_days (self : YMDDate) (weeks : Z) :
  n_weeks self (Some weeks) = n_days self (Some (7 * weeks)) /\
  next_week self = n_weeks self (Some 1) /\
  next_week self = n_days self (Some 7) /\
  tomorrow self = n_days self (Some 1).
Proof.
  split; [|repeat split].
  unfold n_weeks, n_days, timedelta_weeks.
  destruct (Z.gtb_spec weeks 0) as [Hpos | Hnpos].
  - destruct (Z.gtb_spec (7 * weeks) 0); [reflexivity | lia].
  - destruct (Z.gtb_spec (7 * weeks) 0); [lia|].
    destruct (Z.ltb_spec weeks 0) as [Hneg | Hzero].
    + destruct (Z.ltb_spec (7 * weeks) 0); [|lia].
      replace (Z.abs (7 * weeks)) with (7 * Z.abs weeks) by lia. reflexivity.
    + destruct (Z.ltb_spec (7 * weeks) 0); [lia | reflexivity].
Qed.

Lemma to_datetime_add_zero a t : to_datetime a = Ret t -> datetime_add t 0 = Ret t.
Proof.
  intros H. unfold to_datetime, new_datetime in H.
  destruct (Text.int_of_str (_year a)) as [y|]; cbn [bind] in H; [|discriminate].
  destruct (Text.int_of_str (_month a)) as [m|]; cbn [bind] in H; [|discriminate].
  destruct (Text.int_of_str (_day a)) as [d|]; cbn [bind] in H; [|discriminate].
  destruct (new_date y m d) as [x|] eqn:E; cbn [bind] in H; [|discriminate].
  injection H as <-. apply new_date_ret in E. destruct E as [-> V].
  assert (V' : valid_date (mkdate y m d) = true) by exact V.
  unfold datetime_add. cbn [dt_date hour minute second microsecond].
  rewrite Z.add_0_r, in_range_b by (apply toordinal_range, V').
  rewrite fromordinal_toordinal by exact V'. reflexivity.
Qed.

(** The two directed branches shared by [n_months] and [n_years] are an
    offset by [amount] in the direction of [n]. *)
Lemma jump_days self n amount :
  0 <= amount -> n <> 0 ->
  jump self n timedelta_days amount
  = some_of (n_days self (Some (if n >? 0 then amount else - amount))).
Proof.
  intros Hamt Hn. unfold jump, some_of, n_days.
  destruct (Z.gtb_spec n 0) as [Hpos | Hnpos].
  - destruct (Z.gtb_spec amount 0) as [Ha | Ha].
    + destruct (to_datetime self); cbn [bind]; [|reflexivity].
      destruct (timedelta_days amount); cbn [bind]; [|reflexivity].
      destruct (datetime_add _ _); reflexivity.
    + assert (amount = 0) by lia. subst amount. cbn [Z.ltb Z.compare].
      destruct (to_datetime self) as [t|] eqn:E; cbn [bind]; [|reflexivity].
      change (timedelta_days 0) with (@Ret Z 0). cbn [bind].
      rewrite (to_datetime_add_zero self t E). reflexivity.
  - replace (n <? 0) with true by (symmetry; apply Z.ltb_lt; lia).
    destruct (Z.gtb_spec (- amount) 0) as [Ha | Ha]; [lia|].
    destruct (Z.ltb_spec (- amount) 0) as [Hb | Hb].
    + replace (Z.abs (- amount)) with amount by lia.
      destruct (to_datetime self); cbn [bind]; [|reflexivity].
      destruct (timedelta_days amount); cbn [bind]; [|reflexivity].
      destruct (datetime_sub _ _); reflexivity.
    + assert (amount = 0) by lia. subst amount.
      destruct (to_datetime self) as [t|] eqn:E; cbn [bind]; [|reflexivity].
      change (timedelta_days 0) with (@Ret Z 0). cbn [bind]. unfold datetime_sub.
      change (- 0) with 0. rewrite (to_datetime_add_zero self t E). reflexivity.
Qed.

Lemma jump_weeks self n amount :
  jump self n timedelta_weeks amount = jump self n timedelta_days (7 * amount).
Proof. reflexivity. Qed.

Lemma n_days_zero_some self :
  (t <- to_datetime self ;; x <- __init__ (PDatetime t) ;; Ret (Some x))
  = some_of (n_days self (Some 0)).
Proof.
  unfold some_of, n_days. cbn [Z.gtb Z.ltb Z.compare].
  destruct (to_datetime self); reflexivity.
Qed.

Lemma directed_amount n k :
  (if n >? 0 then Z.abs (k * n) else - Z.abs (k * n)) = Z.abs k * n.
Proof. destruct (Z.gtb_spec n 0); nia. Qed.

(** X14.  [n_months] is an offset by days: with the unit [W] or [w],
    by [7 * |weeks_per_month| * months] days, with [D] or [d], by
    [|days_per_month| * months] days.  The direction is that of
    [months]; the sign of the factor does not matter. *)
Theorem n_months_is_n_days (self : YMDDate) (months : Z) (units : string) (wpm dpm : Z) :
  units = "W"%string \/ units = "w"%string \/ units = "D"%string \/ units = "d"%string ->
  n_months self (Some months) units wpm dpm
  = some_of (n_days self (Some (if upper_is units "W"
                                then 7 * (Z.abs wpm * months)
                                else Z.abs dpm * months))).
Proof.
  intros Hu. unfold n_months.
  destruct (Z.eqb_spec months 0) as [-> | Hn].
  - rewrite n_days_zero_some. rewrite !Z.mul_0_r. destruct (upper_is units "W"); reflexivity.
  - assert (HW : upper_is units "W" = true \/ (upper_is units "W" = false /\ upper_is units "D" = true)).
    { destruct Hu as [-> | [-> | [-> | ->]]]; [left | left | right | right]; repeat split. }
    destruct HW as [-> | [-> ->]].
    + rewrite jump_weeks, jump_days by lia. do 3 f_equal.
      rewrite <- (directed_amount months wpm).
      destruct (months >? 0); lia.
    + rewrite jump_days by lia. do 3 f_equal.
      rewrite <- (directed_amount months dpm), (Z.mul_comm dpm months), (Z.mul_comm months dpm).
      reflexivity.
Qed.

Lemma n_months_is_n_days_witness :
  n_months (mkYMDDate "2024" "03" "07") (Some (- 2)) "d" 4 (- 30)
  = some_of (n_days (mkYMDDate "2024" "03" "07")
               (Some (if upper_is "d" "W" then 7 * (Z.abs 4 * - 2) else Z.abs (- 30) * - 2))).
Proof.
  apply (n_months_is_n_days (mkYMDDate "2024" "03" "07") (- 2) "d" 4 (- 30)).
  right. right. right. reflexivity.
Defined.

(** X15.  [n_years] is an offset by days as well: with the unit [D],
    by [|days_per_year| * years] days, with [W], by
    [7 * |weeks_per_year| * years] days. *)
Theorem n_years_is_n_days (self : YMDDate) (years : Z) (dpy wpy : Z) :
  n_years self (Some years) "D" dpy wpy = some_of (n_days self (Some (Z.abs dpy * years))) /\
  n_years self (Some years) "W" dpy wpy = some_of (n_days self (Some (7 * (Z.abs wpy * years)))).
Proof.
  unfold n_years. cbn [String.eqb Ascii.eqb Bool.eqb].
  destruct (Z.eqb_spec years 0) as [-> | Hn].
  - rewrite n_days_zero_some, !Z.mul_0_r. split; reflexivity.
  - split.
    + rewrite jump_days by lia. do 3 f_equal.
      rewrite <- (directed_amount years dpy), (Z.mul_comm dpy years). reflexivity.
    + rewrite jump_weeks, jump_days by lia. do 3 f_equal.
      rewrite <- (directed_amount years wpy), (Z.mul_comm wpy years).
      destruct (years >? 0); lia.
Qed.

(** X16.  The unit of [n_years] is matched exactly: for a number of
    years other than zero, every unit other than [D] and [W] raises
    [ValueError], the lower-case [d] and [w] that [n_months] accepts
    included. *)
Theorem n_years_unit_is_case_sensitive (self : YMDDate) (years : Z) (units : string) (dpy wpy : Z) :
  years <> 0 -> units <> "D"%string -> units <> "W"%string ->
  n_years self (Some years) units dpy wpy = Raise ValueError.
Proof.
  intros Hn HD HW. unfold n_years.
  replace (years =? 0) with false by (symmetry; apply Z.eqb_neq; exact Hn).
  destruct (String.eqb_spec units "D"); [contradiction|].
  destruct (String.eqb_spec units "W"); [contradiction|]. reflexivity.
Qed.

Lemma n_years_unit_is_case_sensitive_witness :
  n_years (mkYMDDate "2024" "03" "07") (Some 1) "w" 365 52 = Raise ValueError.
Proof.
  apply (n_years_unit_is_case_sensitive (mkYMDDate "2024" "03" "07") 1 "w" 365 52); discriminate.
Defined.

(** X17.  With their defaults, [next_month] is the offset by 28 days
    and [next_year] the offset by 364 days. *)
Theorem next_month_next_year_offsets (self : YMDDate) :
  next_month self = some_of (n_days self (Some 28)) /\
  next_year self = some_of (n_days self (Some 364)).
Proof.
  unfold next_month, next_year, n_months, n_years.
  change (upper_is "W" "W") with true. cbn [Z.eqb String.eqb Ascii.eqb Bool.eqb].
  rewrite !jump_weeks, !jump_days by lia. split; reflexivity.
Qed.

(** X18.  For a constructed instance [next_year(full_date=False)] is
    the year of its date plus one; it never raises, the last year of
    the calendar included. *)
Theorem next_year_number_is_year_plus_one (v : pyval) (a : YMDDate) :
  __init__ v = Ret a ->
  exists x, to_date a = Ret x /\ next_year_number a = Ret (year x + 1).
Proof.
  intros Ha. destruct (init_to_date v a Ha) as (x & Hx). exists x. split; [exact Hx|].
  unfold next_year_number. unfold to_date in Hx.
  destruct (Text.int_of_str (_year a)) as [y|]; cbn [bind] in *; [|discriminate].
  destruct (Text.int_of_str (_month a)) as [m|]; cbn [bind] in *; [|discriminate].
  destruct (Text.int_of_str (_day a)) as [d|]; cbn [bind] in *; [|discriminate].
  apply new_date_ret in Hx. destruct Hx as [-> _]. reflexivity.
Qed.

Lemma next_year_number_is_year_plus_one_witness :
  exists x, to_date (mkYMDDate "9999" "12" "31") = Ret x /\
            next_year_number (mkYMDDate "9999" "12" "31") = Ret (year x + 1).
Proof. apply (next_year_number_is_year_plus_one (PStr "9999-12-31")). reflexivity. Defined.

(** ** Days of the week *)

Lemma weekday_range x : 0 <= weekday x <= 6.
Proof. unfold weekday. pose proof (Z.mod_pos_bound (toordinal x + 6) 7 ltac:(lia)). lia. Qed.

Lemma item_in table k :
  0 <= k -> (Z.to_nat k < List.length table)%nat -> In (item table k) table.
Proof. intros _ H. unfold item. apply nth_In, H. Qed.

(** X19.  For a constructed instance and a table of seven
    abbreviations, the three forms of [get_weekday] agree with each
    other and with [is_weekend] and [is_weekday]: the number [k] is
    between 0 and 6, the names are the entries of index [k] of the table
    of names and of the table of abbreviations, the day is a week-end
    day exactly when [k >= 5], and a week day otherwise. *)
Theorem get_weekday_forms (v : pyval) (a : YMDDate) (abbreviated : bool) (abbreviations : list string) :
  __init__ v = Ret a ->
  List.length abbreviations = 7%nat ->
  exists k,
    0 <= k <= 6 /\
    get_weekday a (Some false) abbreviated abbreviations = Ret (DayNumber k) /\
    get_weekday a (Some true) false abbreviations = Ret (DayName (item DAYS_OF_THE_WEEK k)) /\
    get_weekday a (Some true) true abbreviations = Ret (DayName (item abbreviations k)) /\
    In (item abbreviations k) abbreviations /\
    is_weekend a = Ret (5 <=? k) /\ is_weekday a = Ret (negb (5 <=? k)).
Proof.
  intros Ha Hlen. destruct (init_to_date v a Ha) as (x & Hx).
  pose proof (weekday_range x) as R. exists (weekday x).
  unfold get_weekday, is_weekend, is_weekday. rewrite Hlen, Hx. cbn [Nat.eqb negb bind].
  split; [exact R|]. repeat split.
  - apply item_in; [lia|]. rewrite Hlen. lia.
  - f_equal. rewrite Z.geb_leb. reflexivity.
  - f_equal. destruct (Z.leb_spec 5 (weekday x)); cbn [negb]; b2p; lia.
Qed.

Lemma get_weekday_forms_witness :
  exists k,
    0 <= k <= 6 /\
    get_weekday (mkYMDDate "2024" "07" "06") (Some false) true default_abbreviations
      = Ret (DayNumber k) /\
    get_weekday (mkYMDDate "2024" "07" "06") (Some true) false default_abbreviations
      = Ret (DayName (item DAYS_OF_THE_WEEK k)) /\
    get_weekday (mkYMDDate "2024" "07" "06") (Some true) true default_abbreviations
      = Ret (DayName (item default_abbreviations k)) /\
    In (item default_abbreviations k) default_abbreviations /\
    is_weekend (mkYMDDate "2024" "07" "06") = Ret (5 <=? k) /\
    is_weekday (mkYMDDate "2024" "07" "06") = Ret (negb (5 <=? k)).
Proof.
  apply (get_weekday_forms (PStr "2024-07-06")); reflexivity.
Defined.

(** X20.  The table of abbreviations is checked before anything else
    is done: when it does not have seven entries [get_weekday] raises
    [ValueError] also where the table is not used (number asked, or full
    name asked), for every instance. *)
Theorem get_weekday_table_length (self : YMDDate) (name abbreviated : bool)
    (abbreviations : list string) :
  List.length abbreviations <> 7%nat ->
  get_weekday self (Some name) abbreviated abbreviations = Raise ValueError.
Proof.
  intros H. unfold get_weekday.
  destruct (Nat.eqb_spec (List.length abbreviations) 7); [contradiction | reflexivity].
Qed.

Lemma get_weekday_table_length_witness :
  get_weekday (mkYMDDate "2024" "07" "06") (Some false) false ["Sat"; "Sun"]%string
  = Raise ValueError.
Proof.
  apply (get_weekday_table_length (mkYMDDate "2024" "07" "06") false false). discriminate.
Defined.

(** X21.  With the default tables, a constructed instance is a
    week-end day exactly when its full name is Saturday or Sunday, and
    the default abbreviation of a day is made of the first three letters
    of its name. *)
Theorem weekend_names (v : pyval) (a : YMDDate) :
  __init__ v = Ret a ->
  exists full short,
    get_weekday a (Some true) false default_abbreviations = Ret (DayName full) /\
    get_weekday a (Some true) true default_abbreviations = Ret (DayName short) /\
    short = substring 0 3 full /\
    (is_weekend a = Ret true <-> full = "Saturday"%string \/ full = "Sunday"%string).
Proof.
  intros Ha. destruct (init_to_date v a Ha) as (x & Hx).
  pose proof (weekday_range x) as Hk.
  unfold get_weekday, is_weekend. rewrite Hx. cbn [default_abbreviations List.length Nat.eqb negb bind].
  rewrite Z.geb_leb. set (k := weekday x) in *. clearbody k.
  exists (item DAYS_OF_THE_WEEK k), (item default_abbreviations k).
  split; [reflexivity|]. split; [reflexivity|].
  assert (Hcases : k = 0 \/ k = 1 \/ k = 2 \/ k = 3 \/ k = 4 \/ k = 5 \/ k = 6) by lia.
  destruct Hcases as [-> | [-> | [-> | [-> | [-> | [-> | ->]]]]]];
    (split; [reflexivity|]); cbn; split;
    first [ discriminate
          | intros [H | H]; discriminate H
          | intros _; left; reflexivity
          | intros _; right; reflexivity
          | reflexivity ].
Qed.

Lemma weekend_names_witness :
  exists full short,
    get_weekday (mkYMDDate "2024" "07" "06") (Some true) false default_abbreviations
      = Ret (DayName full) /\
    get_weekday (mkYMDDate "2024" "07" "06") (Some true) true default_abbreviations
      = Ret (DayName short) /\
    short = substring 0 3 full /\
    (is_weekend (mkYMDDate "2024" "07" "06") = Ret true <->
     full = "Saturday"%string \/ full = "Sunday"%string).
Proof. apply (weekend_names (PStr "2024-07-06")). reflexivity. Defined.

Lemma n_weeks_spec a x weeks :
  to_date a = Ret x -> 1 <= toordinal x + 7 * weeks <= MAXORDINAL ->
  n_weeks a (Some weeks) = Ret (day_at x (7 * weeks)).
Proof.
  intros Ha H. pose proof (to_date_valid a x Ha) as V.
  pose proof (toordinal_range x V) as R. unfold MAXORDINAL in *.
  unfold n_weeks, timedelta_weeks. rewrite (to_datetime_of_to_date a x Ha). cbn [bind].
  destruct (Z.gtb_spec weeks 0) as [Hpos | Hnpos].
  - rewrite timedelta_days_small by lia. cbn [bind]. apply add_then_init; assumption.
  - destruct (Z.ltb_spec weeks 0) as [Hneg | Hzero].
    + rewrite timedelta_days_small by lia. cbn [bind]. unfold datetime_sub.
      replace (- (7 * Z.abs weeks)) with (7 * weeks) by lia. apply add_then_init; assumption.
    + assert (weeks = 0) by lia. subst weeks.
      rewrite init_datetime by exact V. cbn [dt_date].
      change (7 * 0) with 0. rewrite day_at_zero by exact V. reflexivity.
Qed.

(** X22.  An offset by whole weeks keeps the day of the week: within
    the calendar, the result of [n_weeks] on an instance that denotes
    the date [x] has the same answers to
    [get_weekday], [is_weekend] and [is_weekday] as the instance. *)
Theorem n_weeks_keeps_weekday (a : YMDDate) (x : date) (weeks : Z) :
  to_date a = Ret x ->
  1 <= toordinal x + 7 * weeks <= MAXORDINAL ->
  exists b,
    n_weeks a (Some weeks) = Ret b /\
    is_weekend b = is_weekend a /\ is_weekday b = is_weekday a /\
    forall name abbreviated abbreviations,
      get_weekday b name abbreviated abbreviations
      = get_weekday a name abbreviated abbreviations.
Proof.
  intros Ha H. exists (day_at x (7 * weeks)).
  split; [apply n_weeks_spec; assumption|].
  pose proof (day_at_to_date x (7 * weeks) H) as Hb.
  destruct (fromordinal_valid _ H) as [_ Oy].
  assert (W : weekday (fromordinal (toordinal x + 7 * weeks)) = weekday x).
  { unfold weekday. rewrite Oy.
    replace (toordinal x + 7 * weeks + 6) with (toordinal x + 6 + weeks * 7) by lia.
    apply Z.mod_add. lia. }
  unfold is_weekend, is_weekday, get_weekday. rewrite Ha, Hb. cbn [bind]. rewrite W.
  repeat split.
Qed.

Lemma n_weeks_keeps_weekday_witness :
  exists b,
    n_weeks (mkYMDDate "2024" "07" "06") (Some (- 5)) = Ret b /\
    is_weekend b = is_weekend (mkYMDDate "2024" "07" "06") /\
    is_weekday b = is_weekday (mkYMDDate "2024" "07" "06") /\
    forall name abbreviated abbreviations,
      get_weekday b name abbreviated abbreviations
      = get_weekday (mkYMDDate "2024" "07" "06") name abbreviated abbreviations.
Proof.
  apply (n_weeks_keeps_weekday (mkYMDDate "2024" "07" "06") (mkdate 2024 7 6)).
  - reflexivity.
  - vm_compute. split; discriminate.
Defined.

(** ** [is_today] *)

(** X23.  [is_today] compares numbers: for a constructed instance it
    answers true exactly when the date of the instance is the date part
    of [today], whatever the padding of its text and the time of day. *)
Theorem is_today_by_date (v : pyval) (a : YMDDate) (today : datetime) :
  __init__ v = Ret a ->
  exists x b, to_date a = Ret x /\ is_today today a = Ret b /\
              (b = true <-> x = dt_date today).
Proof.
  intros Ha. destruct (init_to_date v a Ha) as (x & Hx). exists x.
  unfold is_today, to_date in *.
  destruct (Text.int_of_str (_year a)) as [y|]; cbn [bind] in *; [|discriminate].
  destruct (Text.int_of_str (_month a)) as [m|]; cbn [bind] in *; [|discriminate].
  destruct (Text.int_of_str (_day a)) as [d|]; cbn [bind] in *; [|discriminate].
  pose proof (new_date_ret _ _ _ _ Hx) as [Ex _]. subst x.
  destruct today as [[ty tm td] h mi s us]. cbn [dt_date year month day].
  destruct (Z.eqb_spec y ty) as [-> | Hy].
  - destruct (Z.eqb_spec m tm) as [-> | Hm].
    + exists (d =? td). split; [exact Hx|]. split; [reflexivity|].
      rewrite Z.eqb_eq. split; [intros ->; reflexivity | intros [=]; assumption].
    + exists false. split; [exact Hx|]. split; [reflexivity|].
      split; [discriminate | intros [=]; contradiction].
  - exists false. split; [exact Hx|]. split; [reflexivity|].
    split; [discriminate | intros [=]; contradiction].
Qed.

Lemma is_today_by_date_witness :
  exists x b,
    to_date (mkYMDDate "2024" "01" "011") = Ret x /\
    is_today (mkdatetime (mkdate 2024 1 11) 9 30 0 0) (mkYMDDate "2024" "01" "011") = Ret b /\
    (b = true <-> x = dt_date (mkdatetime (mkdate 2024 1 11) 9 30 0 0)).
Proof. apply (is_today_by_date (PStr "2024-01-011")). reflexivity. Defined.

(** ** [is_holiday] *)

(** X24.  When every candidate is an instance, [is_holiday] answers
    true if the instance is in the list and false if it is not; it
    neither raises nor answers [None]. *)
Theorem is_holiday_of_instances (self : YMDDate) (l : list YMDDate) :
  (In self l -> is_holiday self (map PYMD l) = Ret (Some true)) /\
  (~ In self l -> is_holiday self (map PYMD l) = Ret (Some false)).
Proof.
  rewrite is_holiday_loop. induction l as [|h l IH]; cbn [map holiday_loop In].
  - split; [contradiction | reflexivity].
  - destruct (__eq__ h (PYMD self)) as [[|]|] eqn:E; cbn [bind].
    + split; [reflexivity|]. apply eq_instances_iff in E. tauto.
    + assert (h <> self).
      { intros ->. rewrite eq_refl_instance in E. discriminate. }
      destruct IH as [IH1 IH2]. split; intros H'; [apply IH1 | apply IH2]; tauto.
    + cbn in E. discriminate.
Qed.

(** X25.  Candidates that are neither text nor instances ([date] and
    [datetime] objects among them) are passed over: removing one from
    the list does not change the answer, so such a candidate never
    counts as a match. *)
Theorem is_holiday_skips_other_kinds (self : YMDDate) (before after : list pyval) (c : pyval) :
  candidate_kind c = false ->
  is_holiday self (before ++ c :: after) = is_holiday self (before ++ after).
Proof.
  intros Hc. rewrite !is_holiday_loop.
  induction before as [|h before IH]; cbn [app holiday_loop].
  - destruct c; try discriminate Hc; reflexivity.
  - destruct h as [s | x | t | o | | z]; try exact IH.
    + destruct (__init__ (PStr s)) as [b|[]]; try reflexivity.
      destruct (__eq__ b (PYMD self)) as [[|]|]; cbn [bind]; try reflexivity. exact IH.
    + destruct (__eq__ o (PYMD self)) as [[|]|]; cbn [bind]; try reflexivity. exact IH.
Qed.

Lemma is_holiday_skips_other_kinds_witness :
  is_holiday (mkYMDDate "2024" "07" "04") ([] ++ PDate (mkdate 2024 7 4) :: [])
  = is_holiday (mkYMDDate "2024" "07" "04") ([] ++ []).
Proof.
  apply (is_holiday_skips_other_kinds (mkYMDDate "2024" "07" "04") [] []). reflexivity.
Defined.

(** ** [next_business_day] *)

Lemma weekday_of_weekend a b :
  is_weekend a = Ret b -> is_weekday a = Ret (negb b).
Proof.
  unfold is_weekend, is_weekday. destruct (to_date a) as [x|]; cbn [bind]; [|discriminate].
  intros H. injection H as <-. f_equal. rewrite Z.geb_leb.
  destruct (Z.leb_spec 5 (weekday x)); cbn [negb]; b2p; lia.
Qed.

Lemma later_day x j a :
  to_date a = Ret x -> 1 <= j -> toordinal x + j <= MAXORDINAL ->
  __gt__ (day_at x j) (PYMD a) = Ret true /\ __ge__ (day_at x j) (PYMD a) = Ret true.
Proof.
  intros Hx Hj Hmax.
  pose proof (toordinal_range x (to_date_valid a x Hx)) as R.
  assert (Hr : 1 <= toordinal x + j <= MAXORDINAL) by lia.
  pose proof (day_at_to_date x j Hr) as Hb.
  destruct (fromordinal_valid _ Hr) as [_ Oy].
  destruct (gt_instances _ _ _ _ Hb Hx) as [Hgt Hge]. rewrite Hgt, Hge, Oy.
  split; f_equal; b2p; lia.
Qed.

Section NextBusinessDay.

Variable holidays : provider.

(** X26.  Whatever the holiday provider answers, a date returned by
    [next_business_day] for a constructed instance is greater than the
    instance, is a week day and is not a federal holiday. *)
Theorem next_business_day_is_later (v : pyval) (a r : YMDDate) (fuel : nat) :
  __init__ v = Ret a ->
  next_business_day holidays fuel a = Some (Ret r) ->
  __gt__ r (PYMD a) = Ret true /\ __ge__ r (PYMD a) = Ret true /\
  is_weekday r = Ret true /\ is_weekend r = Ret false /\
  is_us_federal_holiday holidays r = Ret false.
Proof.
  intros Ha H. destruct (init_to_date v a Ha) as (x & Hx).
  pose proof (toordinal_range x (to_date_valid a x Hx)) as R.
  unfold next_business_day in H. rewrite (tomorrow_spec a x Hx) in H.
  destruct (toordinal x + 1 <=? MAXORDINAL) eqn:L; [|discriminate H].
  apply Z.leb_le in L.
  destruct (proj1 (business_loop_spec holidays x r fuel 1 (conj (Z.le_trans _ _ _ (proj1 R) (Z.le_succ_diag_r _)) L)) H)
    as (j & Hj & Hmax & Er & _ & Hhol & Hwe).
  subst r. destruct (later_day x j a Hx (proj1 Hj) Hmax) as [Hgt Hge].
  split; [exact Hgt|]. split; [exact Hge|].
  split; [exact (weekday_of_weekend _ _ Hwe)|]. split; [exact Hwe | exact Hhol].
Qed.

End NextBusinessDay.

Lemma next_business_day_is_later_witness :
  __gt__ (mkYMDDate "2024" "05" "28") (PYMD (mkYMDDate "2024" "05" "24")) = Ret true /\
  __ge__ (mkYMDDate "2024" "05" "28") (PYMD (mkYMDDate "2024" "05" "24")) = Ret true /\
  is_weekday (mkYMDDate "2024" "05" "28") = Ret true /\
  is_weekend (mkYMDDate "2024" "05" "28") = Ret false /\
  is_us_federal_holiday holidays_2024 (mkYMDDate "2024" "05" "28") = Ret false.
Proof.
  apply (next_business_day_is_later holidays_2024 (PStr "2024-05-24")
           (mkYMDDate "2024" "05" "24") (mkYMDDate "2024" "05" "28") 7); reflexivity.
Defined.
